(** * Buildroom workflow: order lifecycle, REST routes and kanban board

    A shallow embedding of the parts of the repository the lifecycle
    specification talks about.

    - [Js]: the JavaScript primitives the sources rely on (truthiness of
      strings, [toLowerCase], [includes], [parseInt]);
    - [Kanban]: frontend/src/components/KanbanBoard.js (urgent flag, board
      filters, drag and drop);
    - [Schema]: database/init.sql, the tables the lifecycle lives in;
    - [Lifecycle]: the completion rule of a system over those tables;
    - [Json], [Express]: request and response values, and the routing
      discipline of an Express router (layers tried in registration order,
      a handler either answers or calls next);
    - [Platform], [Auth], [ExpressValidator]: what the routes import;
    - [OrderController], [OrderRoutes], [ErrorHandler]: the backend
      sources, and [Server]: the router in front of the store;
    - [Spec], [Scenario]: the vocabulary of the statements and the concrete
      situations they are evaluated in;
    - [OrderCard]: the card and the columns of the board;
    - [Database]: config/database.js;
    - [View], [Cases]: readers of answers and further concrete situations.

    Strings are byte strings and case conversion is the ASCII one.
    Instants are milliseconds since the epoch, numbers are integers. *)

From Stdlib Require Import ZArith List String Ascii Bool Lia.
From Stdlib Require DecimalString.
Import ListNotations.

Set Warnings "-register-all".

Open Scope string_scope.
Open Scope Z_scope.

(* ================================================================== *)
(** ** JavaScript primitives *)

Module Js.

(** A string is falsy exactly when it is empty. *)
Definition truthy (s : string) : bool :=
  match s with EmptyString => false | String _ _ => true end.

Definition lower_ascii (c : ascii) : ascii :=
  let n := nat_of_ascii c in
  if (Nat.leb 65 n && Nat.leb n 90)%bool then ascii_of_nat (n + 32) else c.

(** [String.prototype.toLowerCase], on ASCII letters. *)
Fixpoint toLowerCase (s : string) : string :=
  match s with
  | EmptyString => EmptyString
  | String c s' => String (lower_ascii c) (toLowerCase s')
  end.

(** [s.startsWith(t)]. *)
Fixpoint startsWith (s t : string) : bool :=
  match t, s with
  | EmptyString, _ => true
  | String _ _, EmptyString => false
  | String b t', String a s' => (Ascii.eqb a b && startsWith s' t')%bool
  end.

(** [s.includes(t)]: [t] occurs somewhere in [s]. *)
Fixpoint includes (s t : string) : bool :=
  match s with
  | EmptyString => startsWith EmptyString t
  | String _ s' => (startsWith s t || includes s' t)%bool
  end.

Definition is_space (c : ascii) : bool :=
  let n := nat_of_ascii c in
  (Nat.leb 9 n && Nat.leb n 13 || Nat.eqb n 32)%bool.

(** Value of a character as a digit in some radix up to 36. *)
Definition digit_val (c : ascii) : option Z :=
  let n := nat_of_ascii c in
  if (Nat.leb 48 n && Nat.leb n 57)%bool then Some (Z.of_nat (n - 48))
  else if (Nat.leb 97 n && Nat.leb n 122)%bool then Some (Z.of_nat (n - 87))
  else if (Nat.leb 65 n && Nat.leb n 90)%bool then Some (Z.of_nat (n - 55))
  else None.

Fixpoint skip_spaces (s : string) : string :=
  match s with
  | String c s' => if is_space c then skip_spaces s' else s
  | EmptyString => s
  end.

(** Longest prefix of digits of the radix, accumulated left to right;
    [None] when there is no digit at all. *)
Fixpoint digits (radix : Z) (acc : option Z) (s : string) : option Z :=
  match s with
  | EmptyString => acc
  | String c s' =>
      match digit_val c with
      | Some d =>
          if d <? radix
          then digits radix
                 (Some (radix * match acc with Some a => a | None => 0 end + d)) s'
          else acc
      | None => acc
      end
  end.

Definition unsigned_int (s : string) : option Z :=
  match s with
  | String "0" (String "x" s') => digits 16 None s'
  | String "0" (String "X" s') => digits 16 None s'
  | _ => digits 10 None s
  end.

(** [parseInt(s)]: leading white space, an optional sign, an optional
    [0x] prefix, then the longest run of digits; [None] is NaN.  White
    space is the ASCII one and integers are exact (no rounding beyond
    2^53). *)
Definition parseInt (s : string) : option Z :=
  match skip_spaces s with
  | String "-" s' => option_map Z.opp (unsigned_int s')
  | String "+" s' => unsigned_int s'
  | s' => unsigned_int s'
  end.

End Js.

(* ================================================================== *)
(** ** The kanban board (frontend/src/components/KanbanBoard.js) *)

Module Kanban.

Record User := {
  user_id : Z;
  first_name : string;
  last_name : string
}.

Record SystemItem := {
  system_id : Z;
  system_status : string
}.

(** An order as the order service delivers it.  [updated_at] is the
    instant [new Date(order.updated_at)] denotes, [None] when the field is
    missing or does not parse (an invalid date, whose arithmetic is NaN). *)
Record Order := {
  id : Z;
  woo_order_id : string;
  customer_name : string;
  customer_department : option string;
  status : string;
  priority : Z;
  delivery_method : string;
  assigned_to : option User;
  systems : list SystemItem;
  updated_at : option Z
}.

(** [{...order, isAssignedToMe, hasUrgentIssue}] *)
Record OrderWithFlags := {
  order : Order;
  isAssignedToMe : bool;
  hasUrgentIssue : bool
}.

(** The mock [useAuth] hook: [{ user: { id: 1, name: 'Test User' } }]. *)
Record AuthUser := { auth_id : Z; auth_name : string }.
Definition useAuth : AuthUser := {| auth_id := 1; auth_name := "Test User" |}.

(** [48 * 60 * 60 * 1000] *)
Definition maxDuration : Z := 48 * 60 * 60 * 1000.

(** [checkUrgentIssues], evaluated when the clock reads [now]:
    [statusDuration > maxDuration && order.status !== 'complete']. *)
Definition checkUrgentIssues (now : Z) (o : Order) : bool :=
  match updated_at o with
  | Some t =>
      let statusDuration := now - t in
      (maxDuration <? statusDuration) && negb (String.eqb (status o) "complete")
  | None => false
  end.

(** [order.assigned_to?.id === user.id] *)
Definition assignedToMe (user : AuthUser) (o : Order) : bool :=
  match assigned_to o with
  | Some u => user_id u =? auth_id user
  | None => false
  end.

(** The body of [fetchOrders] once [orderService.getOrders()] has
    delivered [data]: the value handed to [setOrders]. *)
Definition fetchOrders (now : Z) (user : AuthUser) (data : list Order)
  : list OrderWithFlags :=
  map (fun o => {| order := o;
                   isAssignedToMe := assignedToMe user o;
                   hasUrgentIssue := checkUrgentIssues now o |}) data.

(** Component state of [KanbanBoard] that the read path depends on. *)
Record Board := {
  orders : list OrderWithFlags;
  filterMode : string;
  searchTerm : string
}.

(** The callback given to [orders.filter] in [filteredOrders]. *)
Definition keepOrder (filterMode searchTerm : string) (o : OrderWithFlags)
  : bool :=
  if String.eqb filterMode "assigned" && negb (isAssignedToMe o) then false
  else if String.eqb filterMode "unassigned"
          && match assigned_to (order o) with Some _ => true | None => false end
  then false
  else if Js.truthy searchTerm then
    let searchLower := Js.toLowerCase searchTerm in
    Js.includes (Js.toLowerCase (woo_order_id (order o))) searchLower
    || Js.includes (Js.toLowerCase (customer_name (order o))) searchLower
    || match customer_department (order o) with
       | Some d => Js.includes (Js.toLowerCase d) searchLower
       | None => false
       end
  else true.

Definition filteredOrders (b : Board) : list OrderWithFlags :=
  filter (keepOrder (filterMode b) (searchTerm b)) (orders b).

Definition getOrdersByStatus (b : Board) (st : string) : list OrderWithFlags :=
  filter (fun o => String.eqb (status (order o)) st) (filteredOrders b).

(** What the board asks of the order service. *)
Inductive Call :=
| UpdateOrderStatus (orderId : Z) (newStatus : string)
| GetOrders.

(** [handleOrderDrop]: update through the service, then refresh. *)
Definition handleOrderDrop (orderId : Z) (newStatus : string) : list Call :=
  [UpdateOrderStatus orderId newStatus; GetOrders].

(** The drag item of an [OrderCard]. *)
Record DragItem := { item_id : Z; currentStatus : string }.

Definition dragItem (o : Order) : DragItem :=
  {| item_id := id o; currentStatus := status o |}.

Record Column := { value : string; label : string }.

Definition statuses : list Column :=
  [ {| value := "ordered"; label := "Ordered" |};
    {| value := "in_progress"; label := "In Progress" |};
    {| value := "qa_review"; label := "QA Review" |};
    {| value := "ready_to_deliver"; label := "Ready to Deliver" |};
    {| value := "complete"; label := "Complete" |} ].

(** The [drop] callback of a [KanbanColumn], with [onOrderDrop] bound to
    [handleOrderDrop] as [KanbanBoard] binds it: the service calls made. *)
Definition drop (col : Column) (item : DragItem) : list Call :=
  if negb (String.eqb (currentStatus item) (value col))
  then handleOrderDrop (item_id item) (value col)
  else [].

End Kanban.

(* ================================================================== *)
(** ** The relational schema (database/init.sql) *)

Module Schema.

(** A nullable [INTEGER REFERENCES t(id)] column points at key [k]. *)
Definition refs (col : option Z) (k : Z) : bool :=
  match col with Some r => r =? k | None => false end.

Definition is_set {A} (col : option A) : bool :=
  match col with Some _ => true | None => false end.

Record orders_row := {
  o_id : Z;
  o_woo_order_id : string;            (* UNIQUE NOT NULL *)
  o_customer_name : string;
  o_customer_email : string;
  o_customer_department : option string;
  o_status : string;                  (* NOT NULL DEFAULT 'ordered' *)
  o_priority : option Z;              (* DEFAULT 0 *)
  o_assigned_to : option Z;           (* REFERENCES users(id) *)
  o_order_date : Z;
  o_delivery_method : option string;
  o_updated_at : option Z
}.

Record systems_row := {
  s_id : Z;
  s_order_id : option Z;              (* REFERENCES orders(id) *)
  s_system_type_id : option Z;
  s_serial_number : option string;
  s_status : option string;           (* DEFAULT 'pending' *)
  s_assigned_to : option Z
}.

Record checklist_steps_row := {
  st_id : Z;
  st_template_id : option Z;          (* REFERENCES checklist_templates(id) *)
  st_step_order : Z;
  st_name : string;
  st_requires_qa : bool               (* DEFAULT false *)
}.

Record system_checklists_row := {
  sc_id : Z;
  sc_system_id : option Z;            (* REFERENCES systems(id) *)
  sc_template_id : option Z
}.

Record checklist_completions_row := {
  cc_id : Z;
  cc_system_checklist_id : option Z;  (* REFERENCES system_checklists(id) *)
  cc_step_id : option Z;              (* REFERENCES checklist_steps(id) *)
  cc_completed_by : option Z;
  cc_completed_at : option Z;
  cc_qa_checked_by : option Z;
  cc_qa_checked_at : option Z
}.

Record Store := {
  orders : list orders_row;
  systems : list systems_row;
  checklist_steps : list checklist_steps_row;
  system_checklists : list system_checklists_row;
  checklist_completions : list checklist_completions_row
}.

(** [UNIQUE (woo_order_id)]: how many orders carry an external reference. *)
Definition count_external_ref (st : Store) (ref : string) : nat :=
  List.length (filter (fun o => String.eqb (o_woo_order_id o) ref) (orders st)).

Definition find_order (st : Store) (oid : Z) : option orders_row :=
  find (fun o => o_id o =? oid) (orders st).

End Schema.

(* ================================================================== *)
(** ** Derived completion of a system *)

Module Lifecycle.
Import Schema.

(** Modelled from the spec: the step "done" rule of section 4.2.  The
    routes that would compute it (routes/systems, routes/checklists,
    required by index.js) are not among the sources; only the tables
    are.  A step is done when a completion row keyed by (checklist
    instance, step) has a completion timestamp and, if the step requires
    QA, a QA-check timestamp. *)
Definition step_done (st : Store) (c : system_checklists_row)
           (s : checklist_steps_row) : bool :=
  existsb (fun r =>
             refs (cc_system_checklist_id r) (sc_id c)
             && refs (cc_step_id r) (st_id s)
             && is_set (cc_completed_at r)
             && (negb (st_requires_qa s) || is_set (cc_qa_checked_at r)))
          (checklist_completions st).

(** Steps of the template a checklist was instantiated from. *)
Definition steps_of (st : Store) (c : system_checklists_row)
  : list checklist_steps_row :=
  match sc_template_id c with
  | Some t => filter (fun s => refs (st_template_id s) t) (checklist_steps st)
  | None => []
  end.

(** Modelled from the spec: the incomplete steps of a checklist instance
    (section 4.2, "its checklist has zero incomplete steps"). *)
Definition incomplete_steps (st : Store) (c : system_checklists_row)
  : list checklist_steps_row :=
  filter (fun s => negb (step_done st c s)) (steps_of st c).

Definition checklists_of (st : Store) (sys : systems_row)
  : list system_checklists_row :=
  filter (fun c => refs (sc_system_id c) (s_id sys)) (system_checklists st).

(** Modelled from the spec: the derived status of a system is complete
    exactly when its checklist has zero incomplete steps (section 4.2);
    the code deriving it is not among the sources. *)
Definition derived_complete (st : Store) (sys : systems_row) : bool :=
  forallb (fun c => Nat.eqb (List.length (incomplete_steps st c)) 0)
          (checklists_of st sys).

(** Systems of an order that keep it from completing. *)
Definition blocking_systems (st : Store) (oid : Z) : list systems_row :=
  filter (fun s => refs (s_order_id s) oid && negb (derived_complete st s))
         (systems st).

End Lifecycle.

(* ================================================================== *)
(** ** JSON values, as request bodies carry them and [res.json] sends them *)

Module Json.

Inductive value :=
| VUndefined
| VNull
| VNaN
| VBool (b : bool)
| VNum (z : Z)
| VStr (s : string)
| VArr (l : list value)
| VObj (o : list (string * value)).

Definition obj := list (string * value).

(** [o[k]], [undefined] when the key is absent. *)
Fixpoint get (o : obj) (k : string) : value :=
  match o with
  | [] => VUndefined
  | (k', v) :: o' => if String.eqb k' k then v else get o' k
  end.

(** [o[k] = v]: an existing key keeps its place, a new one goes last. *)
Fixpoint set (k : string) (v : value) (o : obj) : obj :=
  match o with
  | [] => [(k, v)]
  | (k', v') :: o' =>
      if String.eqb k' k then (k, v) :: o' else (k', v') :: set k v o'
  end.

(** [{ ...dst, ...src }] *)
Definition spread (dst src : obj) : obj :=
  fold_left (fun acc kv => set (fst kv) (snd kv) acc) src dst.

(** Decimal form of an integer, as [String(n)] prints it. *)
Definition decimal (z : Z) : string :=
  DecimalString.NilZero.string_of_int (Z.to_int z).

Fixpoint join (l : list string) : string :=
  match l with
  | [] => ""
  | [s] => s
  | s :: l' => s ++ "," ++ join l'
  end.

(** The string form validators and sanitizers work on: empty for
    [undefined], [null] and NaN, [String(v)] otherwise.  Integers print
    with all their digits; the exponent form JavaScript switches to from
    1e21 on is outside this model. *)
Fixpoint stringify (v : value) : string :=
  match v with
  | VUndefined | VNull | VNaN => ""
  | VBool true => "true"
  | VBool false => "false"
  | VNum z => decimal z
  | VStr s => s
  | VArr l => join (map stringify l)
  | VObj _ => "[object Object]"
  end.

Definition of_parseInt (r : option Z) : value :=
  match r with Some z => VNum z | None => VNaN end.

End Json.

(* ================================================================== *)
(** ** Express routing *)

Module Express.
Import Json.

Inductive Method := GET | POST | PATCH | PUT | DELETE.

Definition method_eqb (a b : Method) : bool :=
  match a, b with
  | GET, GET | POST, POST | PATCH, PATCH | PUT, PUT | DELETE, DELETE => true
  | _, _ => false
  end.

(** The authenticated actor [authenticate] leaves on the request. *)
Record Actor := { actor_id : Z; role : string }.

(** A request as the orders router receives it: the path is relative to
    the mount point [/api/orders], split at the slashes. *)
Record Request := {
  method : Method;
  path : list string;
  query : obj;
  body : obj;
  user : Actor
}.

Record Response := { statusCode : Z; json : value }.

(** One entry of [validationResult(req).array()]. *)
Record ValidationError := {
  ve_path : string;
  ve_value : value;
  ve_msg : string
}.

(** What a handler sees: the request, [req.params] of the layer being
    run, the validation errors recorded on the request so far and the
    instant [new Date()] reads. *)
Record Ctx := {
  req : Request;
  params : list (string * string);
  errors : list ValidationError;
  now : Z
}.

(** A handler either answers or calls [next()]. *)
Inductive Outcome :=
| Next (c : Ctx)
| Respond (r : Response).

Definition Handler := Ctx -> Outcome.

Inductive Seg := Lit (s : string) | Param (name : string).

Inductive Layer :=
| Route (m : Method) (pattern : list Seg) (stack : list Handler)
| Use (h : Handler).

(** Route matching: literals compare without regard to case (the router
    default), a parameter takes one non-empty segment. *)
Fixpoint match_path (pattern : list Seg) (p : list string)
  : option (list (string * string)) :=
  match pattern, p with
  | [], [] => Some []
  | Lit l :: pattern', s :: p' =>
      if String.eqb (Js.toLowerCase l) (Js.toLowerCase s)
      then match_path pattern' p' else None
  | Param n :: pattern', s :: p' =>
      if Js.truthy s
      then option_map (cons (n, s)) (match_path pattern' p') else None
  | _, _ => None
  end.

Definition with_params (c : Ctx) (ps : list (string * string)) : Ctx :=
  {| req := req c; params := ps; errors := errors c; now := now c |}.

Definition param (c : Ctx) (k : string) : string :=
  match find (fun kv => String.eqb (fst kv) k) (params c) with
  | Some kv => snd kv
  | None => ""
  end.

(** The handlers of one route, in order, until one answers. *)
Fixpoint run_stack (hs : list Handler) (c : Ctx) : Outcome :=
  match hs with
  | [] => Next c
  | h :: hs' =>
      match h c with
      | Next c' => run_stack hs' c'
      | Respond r => Respond r
      end
  end.

(** The layers of a router, in registration order.  A route whose
    handlers all called [next()] hands over to the layers after it, with
    [req.params] as they were before it.  [Next] at the end means the
    router did not answer. *)
Fixpoint dispatch (layers : list Layer) (c : Ctx) : Outcome :=
  match layers with
  | [] => Next c
  | Route m pattern hs :: layers' =>
      if method_eqb m (method (req c)) then
        match match_path pattern (path (req c)) with
        | Some ps =>
            match run_stack hs (with_params c ps) with
            | Next c' => dispatch layers' (with_params c' (params c))
            | Respond r => Respond r
            end
        | None => dispatch layers' c
        end
      else dispatch layers' c
  | Use h :: layers' =>
      match h c with
      | Next c' => dispatch layers' c'
      | Respond r => Respond r
      end
  end.

End Express.

(* ================================================================== *)
(** ** Library functions taken as given *)

Module Platform.

(** validator.js's [isEmail] and [isISO8601] on strings and
    [Date.prototype.toISOString] on instants are not reimplemented; the
    backend is modelled for any such functions. *)
Record t := {
  isEmail : string -> bool;
  isISO8601 : string -> bool;
  toISOString : Z -> string
}.

End Platform.

(* ================================================================== *)
(** ** Role gate *)

Module Auth.
Import Json Express.

(** Modelled from the spec: [authorize] comes from middleware/auth, which
    is not among the sources.  Sections 4.3 and 7: a role-gated operation
    is permitted only to an actor holding one of the listed roles and
    fails with Forbidden otherwise. *)
Definition authorize (roles : list string) : Handler :=
  fun c =>
    if existsb (String.eqb (role (user (req c)))) roles
    then Next c
    else Respond {| statusCode := 403;
                    json := VObj [("error", VStr "Forbidden")] |}.

End Auth.

(* ================================================================== *)
(** ** Validation chains (express-validator) *)

Module ExpressValidator.
Import Json Express.

(** The chain methods routes/orders.js uses. *)
Inductive Step :=
| notEmpty
| trim
| isEmail
| isISO8601
| isIn (values : list string)
| isInt (min max : option Z)
| isArray (min : option Z).

(** [body('k')] and [body('k.*')]. *)
Inductive Field := Key (k : string) | Each (k : string).

Fixpoint all_digits (s : string) : bool :=
  match s with
  | EmptyString => true
  | String c s' =>
      let n := nat_of_ascii c in
      (Nat.leb 48 n && Nat.leb n 57)%bool && all_digits s'
  end.

(** An optional sign followed by decimal digits, and its value. *)
Definition int_literal (s : string) : option Z :=
  let '(neg, ds) :=
    match s with
    | String "-" r => (true, r)
    | String "+" r => (false, r)
    | _ => (false, s)
    end in
  if Js.truthy ds && all_digits ds
  then option_map (fun z => if neg then - z else z) (Js.digits 10 None ds)
  else None.

Definition at_least (bound : option Z) (z : Z) : bool :=
  match bound with Some m => m <=? z | None => true end.

Definition at_most (bound : option Z) (z : Z) : bool :=
  match bound with Some m => z <=? m | None => true end.

Fixpoint rtrim (s : string) : string :=
  match s with
  | EmptyString => EmptyString
  | String c s' =>
      match rtrim s' with
      | EmptyString => if Js.is_space c then EmptyString else String c EmptyString
      | r => String c r
      end
  end.

(** Whether a string passes a standard validator. *)
Definition passes (P : Platform.t) (st : Step) (s : string) : bool :=
  match st with
  | notEmpty => Js.truthy s
  | isEmail => Platform.isEmail P s
  | isISO8601 => Platform.isISO8601 P s
  | isIn values => existsb (String.eqb s) values
  | isInt min max =>
      match int_literal s with
      | Some z => at_least min z && at_most max z
      | None => false
      end
  | trim | isArray _ => true
  end.

(** Standard validators and sanitizers visit the elements of an array
    value one by one. *)
Definition elements (v : value) : list value :=
  match v with VArr l => l | _ => [v] end.

Definition invalid (p : string) (v : value) : ValidationError :=
  {| ve_path := p; ve_value := v; ve_msg := "Invalid value" |}.

(** Errors one step records for a field value. *)
Definition step_errors (P : Platform.t) (st : Step) (p : string) (v : value)
  : list ValidationError :=
  match st with
  | trim => []
  | isArray min =>
      match v with
      | VArr l => if at_least min (Z.of_nat (List.length l)) then []
                  else [invalid p v]
      | _ => [invalid p v]
      end
  | _ =>
      map (invalid p)
          (filter (fun x => negb (passes P st (stringify x))) (elements v))
  end.

(** The value a step leaves in the field: only [trim] changes it. *)
Definition step_value (st : Step) (v : value) : value :=
  match st with
  | trim =>
      let clean x := VStr (rtrim (Js.skip_spaces (stringify x))) in
      match v with
      | VArr l => VArr (map clean l)
      | _ => clean v
      end
  | _ => v
  end.

(** The steps of a chain in order, each on the value the previous left. *)
Fixpoint run_steps (P : Platform.t) (steps : list Step) (p : string)
         (v : value) : value * list ValidationError :=
  match steps with
  | [] => (v, [])
  | st :: steps' =>
      let '(v', es) := run_steps P steps' p (step_value st v) in
      (v', (step_errors P st p v ++ es)%list)
  end.

Definition sanitizes (steps : list Step) : bool :=
  existsb (fun st => match st with trim => true | _ => false end) steps.

Fixpoint run_each (P : Platform.t) (steps : list Step) (k : string)
         (i : Z) (l : list value) : list value * list ValidationError :=
  match l with
  | [] => ([], [])
  | v :: l' =>
      let '(v', es) := run_steps P steps (k ++ "[" ++ decimal i ++ "]") v in
      let '(vs, es') := run_each P steps k (i + 1) l' in
      (v' :: vs, (es ++ es')%list)
  end.

Fixpoint run_props (P : Platform.t) (steps : list Step) (k : string)
         (o : obj) : obj * list ValidationError :=
  match o with
  | [] => ([], [])
  | (f, v) :: o' =>
      let '(v', es) := run_steps P steps (k ++ "." ++ f) v in
      let '(o'', es') := run_props P steps k o' in
      ((f, v') :: o'', (es ++ es')%list)
  end.

(** A chain on the request body: the body it leaves and the errors it
    records. *)
Definition run_chain (P : Platform.t) (f : Field) (steps : list Step)
           (b : obj) : obj * list ValidationError :=
  match f with
  | Key k =>
      let '(v', es) := run_steps P steps k (get b k) in
      (if sanitizes steps then set k v' b else b, es)
  | Each k =>
      match get b k with
      | VArr l =>
          let '(l', es) := run_each P steps k 0 l in
          (if sanitizes steps then set k (VArr l') b else b, es)
      | VObj o =>
          let '(o', es) := run_props P steps k o in
          (if sanitizes steps then set k (VObj o') b else b, es)
      | _ => (b, [])
      end
  end.

(** A chain used as a middleware: it annotates the request and always
    calls [next()]. *)
Definition chain (P : Platform.t) (f : Field) (steps : list Step) : Handler :=
  fun c =>
    let '(b', es) := run_chain P f steps (body (req c)) in
    Next {| req := {| method := method (req c); path := path (req c);
                      query := query (req c); body := b';
                      user := user (req c) |};
            params := params c;
            errors := (errors c ++ es)%list;
            now := now c |}.

Definition error_json (e : ValidationError) : value :=
  VObj [("type", VStr "field"); ("value", ve_value e);
        ("msg", VStr (ve_msg e)); ("path", VStr (ve_path e));
        ("location", VStr "body")].

End ExpressValidator.

(* ================================================================== *)
(** ** controllers/orderController.js *)

Module OrderController.
Import Json Express.

(** [res.json(v)] *)
Definition send (v : value) : Outcome :=
  Respond {| statusCode := 200; json := v |}.

(** [catch (error) { res.status(500).json({ error: error.message }) }] *)
Definition caught (message : string) : Outcome :=
  Respond {| statusCode := 500; json := VObj [("error", VStr message)] |}.

(** [new Date()] as [res.json] serialises it. *)
Definition date (P : Platform.t) (c : Ctx) : value :=
  VStr (Platform.toISOString P (now c)).

(** [parseInt(id)] on the route parameter. *)
Definition parsed_id (c : Ctx) : value :=
  of_parseInt (Js.parseInt (param c "id")).

Definition getOrders (P : Platform.t) : Handler :=
  fun c =>
    send (VArr [VObj [("id", VNum 1);
                      ("woo_order_id", VStr "WC-1001");
                      ("customer_name", VStr "John Doe");
                      ("customer_email", VStr "john@example.com");
                      ("customer_department", VStr "Engineering");
                      ("status", VStr "ordered");
                      ("priority", VNum 1);
                      ("assigned_to", VNull);
                      ("order_date", date P c);
                      ("delivery_method", VStr "shipping");
                      ("systems", VArr [])]]).

Definition getOrderById : Handler :=
  fun c =>
    send (VObj [("id", parsed_id c);
                ("woo_order_id", VStr "WC-1001");
                ("customer_name", VStr "John Doe");
                ("customer_email", VStr "john@example.com");
                ("status", VStr "ordered")]).

(** [res.status(201).json({ id: 1, ...orderData, created_at: new Date() })] *)
Definition createOrder (P : Platform.t) : Handler :=
  fun c =>
    let orderData := body (req c) in
    Respond {| statusCode := 201;
               json := VObj (set "created_at" (date P c)
                                 (spread [("id", VNum 1)] orderData)) |}.

Definition updateOrderStatus (P : Platform.t) : Handler :=
  fun c =>
    send (VObj [("id", parsed_id c);
                ("status", get (body (req c)) "status");
                ("updated_at", date P c)]).

Definition assignOrder (P : Platform.t) : Handler :=
  fun c =>
    send (VObj [("id", parsed_id c);
                ("assigned_to", get (body (req c)) "user_id");
                ("updated_at", date P c)]).

Definition updatePriority (P : Platform.t) : Handler :=
  fun c =>
    send (VObj [("id", parsed_id c);
                ("priority", get (body (req c)) "priority");
                ("updated_at", date P c)]).

Definition getOrderSystems : Handler :=
  fun c => send (VArr []).

Definition completeOrder (P : Platform.t) : Handler :=
  fun c =>
    let b := body (req c) in
    send (VObj [("id", parsed_id c);
                ("status", VStr "complete");
                ("tracking_number", get b "tracking_number");
                ("delivery_confirmation", get b "delivery_confirmation");
                ("final_notes", get b "final_notes");
                ("completed_at", date P c)]).

(** [order_ids.length]: reading the property of [undefined] or [null]
    throws a TypeError (message as V8 words it), which the handler's own
    catch turns into a 500. *)
Definition bulkAssignOrders : Handler :=
  fun c =>
    let order_ids := get (body (req c)) "order_ids" in
    let user_id := get (body (req c)) "user_id" in
    let answer len :=
      send (VObj [("updated", len); ("order_ids", order_ids);
                  ("assigned_to", user_id)]) in
    match order_ids with
    | VUndefined =>
        caught "Cannot read properties of undefined (reading 'length')"
    | VNull =>
        caught "Cannot read properties of null (reading 'length')"
    | VArr l => answer (VNum (Z.of_nat (List.length l)))
    | VStr s => answer (VNum (Z.of_nat (String.length s)))
    | VObj o => answer (get o "length")
    | _ => answer VUndefined
    end.

End OrderController.

(* ================================================================== *)
(** ** routes/orders.js *)

Module OrderRoutes.
Import Json Express ExpressValidator.

(** The last layer of the router: "Middleware to handle validation
    errors". *)
Definition validationErrors : Handler :=
  fun c =>
    match errors c with
    | [] => Next c
    | es => Respond {| statusCode := 400;
                       json := VObj [("errors", VArr (map error_json es))] |}
    end.

Definition order_statuses : list string :=
  ["ordered"; "in_progress"; "qa_review"; "ready_to_deliver"; "complete"].

(** The layers in the order the file registers them. *)
Definition router (P : Platform.t) : list Layer :=
  [ Route GET [] [OrderController.getOrders P];
    Route GET [Param "id"] [OrderController.getOrderById];
    Route POST []
      [ chain P (Key "woo_order_id") [notEmpty; trim];
        chain P (Key "customer_name") [notEmpty; trim];
        chain P (Key "customer_email") [isEmail];
        chain P (Key "order_date") [isISO8601];
        chain P (Key "delivery_method") [isIn ["delivery"; "shipping"]];
        OrderController.createOrder P ];
    Route PATCH [Param "id"; Lit "status"]
      [ chain P (Key "status") [isIn order_statuses];
        OrderController.updateOrderStatus P ];
    Route PATCH [Param "id"; Lit "assign"]
      [ Auth.authorize ["manager"; "admin"];
        chain P (Key "user_id") [isInt (Some 1) None];
        OrderController.assignOrder P ];
    Route PATCH [Param "id"; Lit "priority"]
      [ Auth.authorize ["manager"; "admin"];
        chain P (Key "priority") [isInt (Some 0) (Some 5)];
        OrderController.updatePriority P ];
    Route GET [Param "id"; Lit "systems"] [OrderController.getOrderSystems];
    Route POST [Param "id"; Lit "complete"] [OrderController.completeOrder P];
    Route POST [Lit "bulk-assign"]
      [ Auth.authorize ["manager"; "admin"];
        chain P (Key "order_ids") [isArray (Some 1)];
        chain P (Each "order_ids") [isInt None None];
        chain P (Key "user_id") [isInt (Some 1) None];
        OrderController.bulkAssignOrders ];
    Use validationErrors ].

End OrderRoutes.

(* ================================================================== *)
(** ** The orders API in front of the store *)

Module Server.
Import Json Express.

Definition fresh (t : Z) (rq : Request) : Ctx :=
  {| req := rq; params := []; errors := []; now := t |}.

(** One request against the orders router at instant [t].  Neither the
    router nor the controller holds a handle on the database (the
    controller is the mock the sources ship, every database action still
    a TODO), so the store a request finds is the store it leaves. *)
Definition handle (P : Platform.t) (st : Schema.Store) (t : Z) (rq : Request)
  : Schema.Store * Outcome :=
  (st, dispatch (OrderRoutes.router P) (fresh t rq)).

Definition answer (r : Schema.Store * Outcome) : option Response :=
  match snd r with Respond rs => Some rs | Next _ => None end.

(** The status code of an answer, [None] when the router passed. *)
Definition answer_status (r : Schema.Store * Outcome) : option Z :=
  option_map statusCode (answer r).

Definition answer_field (r : Schema.Store * Outcome) (k : string) : value :=
  match answer r with
  | Some {| json := VObj o |} => get o k
  | _ => VUndefined
  end.

End Server.

(* ================================================================== *)
(** ** middleware/errorHandler.js *)

Module ErrorHandler.
Import Json Express.

(** The fields of a thrown error the handler looks at. *)
Record JsError := {
  name : string;
  message : option string;
  status : option Z;
  stack : option string
}.

Inductive LogEntry := ConsoleError (label : string) (err : JsError).

(** [err.status || 500] *)
Definition default_status (err : JsError) : Z :=
  match status err with
  | Some s => if s =? 0 then 500 else s
  | None => 500
  end.

(** [err.message || 'Internal Server Error'] *)
Definition default_message (err : JsError) : string :=
  match message err with
  | Some m => if Js.truthy m then m else "Internal Server Error"
  | None => "Internal Server Error"
  end.

(** The handler, given [process.env.NODE_ENV]: what it logs and what it
    sends. *)
Definition errorHandler (node_env : option string) (err : JsError)
  : list LogEntry * Response :=
  let '(st, msg) :=
    if String.eqb (name err) "ValidationError" then
      (400, "Validation Error")
    else if String.eqb (name err) "UnauthorizedError" then
      (401, "Unauthorized")
    else if String.eqb (name err) "SequelizeValidationError" then
      (400, "Database Validation Error")
    else if String.eqb (name err) "SequelizeUniqueConstraintError" then
      (409, "Duplicate Entry")
    else (default_status err, default_message err) in
  let development :=
    match node_env with
    | Some e => String.eqb e "development"
    | None => false
    end in
  let stack_field :=
    if development
    then [("stack", match stack err with Some s => VStr s | None => VUndefined end)]
    else [] in
  ([ConsoleError "Error:" err],
   {| statusCode := st;
      json := VObj [("error",
                     VObj ([("message", VStr msg); ("status", VNum st)]
                             ++ stack_field)%list)] |}).

(** The message the caller reads in the answer. *)
Definition sent_message (r : Response) : value :=
  match json r with
  | VObj o => match get o "error" with
              | VObj e => get e "message"
              | _ => VUndefined
              end
  | _ => VUndefined
  end.

(** The names the handler knows; any other error is unexpected. *)
Definition recognised (err : JsError) : bool :=
  existsb (String.eqb (name err))
          ["ValidationError"; "UnauthorizedError";
           "SequelizeValidationError"; "SequelizeUniqueConstraintError"].

End ErrorHandler.

(* ================================================================== *)
(** ** Vocabulary of the statements and the concrete situations they are
     evaluated in *)

Module Spec.
Import Kanban.

(** [t] occurs in [s] when case is disregarded. *)
Definition contains_ci (s t : string) : Prop :=
  exists pre post,
    Js.toLowerCase s = (pre ++ Js.toLowerCase t ++ post)%string.

(** The search filter of section 4.4: a match in the external reference
    id, the customer name or the department. *)
Definition search_matches (term : string) (o : Order) : Prop :=
  contains_ci (woo_order_id o) term
  \/ contains_ci (customer_name o) term
  \/ exists d, customer_department o = Some d /\ contains_ci d term.

(** "Assigned to the acting user". *)
Definition assigned_to_user (user : AuthUser) (o : Order) : Prop :=
  exists u, assigned_to o = Some u /\ user_id u = auth_id user.

(** The board after a fetch at instant [now], with the filters set. *)
Definition board (now : Z) (user : AuthUser) (data : list Order)
           (mode term : string) : Board :=
  {| orders := fetchOrders now user data;
     filterMode := mode;
     searchTerm := term |}.

(** The checklist instances of a system, the steps of an instantiated
    checklist, and what section 4.2 asks of each step: a completion
    record with a completion timestamp and, when the step requires QA, a
    QA-check timestamp. *)
Definition checklist_of (st : Schema.Store) (sys : Schema.systems_row)
           (c : Schema.system_checklists_row) : Prop :=
  In c (Schema.system_checklists st)
  /\ Schema.sc_system_id c = Some (Schema.s_id sys).

Definition step_of (st : Schema.Store) (c : Schema.system_checklists_row)
           (s : Schema.checklist_steps_row) : Prop :=
  In s (Schema.checklist_steps st)
  /\ exists t, Schema.sc_template_id c = Some t
               /\ Schema.st_template_id s = Some t.

Definition step_recorded (st : Schema.Store)
           (c : Schema.system_checklists_row)
           (s : Schema.checklist_steps_row) : Prop :=
  exists r,
    In r (Schema.checklist_completions st)
    /\ Schema.cc_system_checklist_id r = Some (Schema.sc_id c)
    /\ Schema.cc_step_id r = Some (Schema.st_id s)
    /\ Schema.cc_completed_at r <> None
    /\ (Schema.st_requires_qa s = true -> Schema.cc_qa_checked_at r <> None).

(** Handler disciplines: a handler that passes on or answers something
    other than 400, a handler that always answers something other than
    400, and a route whose last handler is of the second kind and whose
    other handlers are of the first. *)
Definition passes_on (h : Express.Handler) : Prop :=
  forall c, (exists c', h c = Express.Next c')
            \/ (exists r, h c = Express.Respond r /\ Express.statusCode r <> 400).

Definition answers (h : Express.Handler) : Prop :=
  forall c, exists r, h c = Express.Respond r /\ Express.statusCode r <> 400.

Inductive closed_layer : Express.Layer -> Prop :=
| closed_route (m : Express.Method) (pattern : list Express.Seg)
               (before : list Express.Handler)
               (last : Express.Handler) :
    Forall passes_on before -> answers last ->
    closed_layer (Express.Route m pattern (before ++ [last])%list).

End Spec.

Module Scenario.
Import Json Express.

(** Stand-ins for the library functions, to evaluate concrete requests. *)
Definition platform : Platform.t :=
  {| Platform.isEmail := fun s => Js.includes s "@";
     Platform.isISO8601 := fun s => Js.truthy s;
     Platform.toISOString := fun t => Json.decimal t |}.

Definition manager : Actor := {| actor_id := 2; role := "manager" |}.
Definition staff : Actor := {| actor_id := 3; role := "staff" |}.

Definition order_row (oid : Z) (ref status : string) (assignee : option Z)
  : Schema.orders_row :=
  {| Schema.o_id := oid;
     Schema.o_woo_order_id := ref;
     Schema.o_customer_name := "John Doe";
     Schema.o_customer_email := "john@example.com";
     Schema.o_customer_department := Some "Engineering";
     Schema.o_status := status;
     Schema.o_priority := Some 0;
     Schema.o_assigned_to := assignee;
     Schema.o_order_date := 0;
     Schema.o_delivery_method := Some "shipping";
     Schema.o_updated_at := Some 0 |}.

Definition empty_store : Schema.Store :=
  {| Schema.orders := [];
     Schema.systems := [];
     Schema.checklist_steps := [];
     Schema.system_checklists := [];
     Schema.checklist_completions := [] |}.

(** Section 8's example: order 1 owns system 10, whose checklist 100
    instantiates template 7 with step 71 (no QA) and step 72 (QA). *)
Definition system10 : Schema.systems_row :=
  {| Schema.s_id := 10;
     Schema.s_order_id := Some 1;
     Schema.s_system_type_id := Some 5;
     Schema.s_serial_number := None;
     Schema.s_status := Some "pending";
     Schema.s_assigned_to := None |}.

Definition step71 : Schema.checklist_steps_row :=
  {| Schema.st_id := 71; Schema.st_template_id := Some 7;
     Schema.st_step_order := 1; Schema.st_name := "Unbox";
     Schema.st_requires_qa := false |}.

Definition step72 : Schema.checklist_steps_row :=
  {| Schema.st_id := 72; Schema.st_template_id := Some 7;
     Schema.st_step_order := 2; Schema.st_name := "Image";
     Schema.st_requires_qa := true |}.

Definition completion (cid step : Z) (qa : option Z)
  : Schema.checklist_completions_row :=
  {| Schema.cc_id := cid;
     Schema.cc_system_checklist_id := Some 100;
     Schema.cc_step_id := Some step;
     Schema.cc_completed_by := Some 3;
     Schema.cc_completed_at := Some 1000;
     Schema.cc_qa_checked_by := option_map (fun _ => 2) qa;
     Schema.cc_qa_checked_at := qa |}.

Definition order1_store (status : string)
           (done : list Schema.checklist_completions_row) : Schema.Store :=
  {| Schema.orders := [order_row 1 "WC-1001" status None];
     Schema.systems := [system10];
     Schema.checklist_steps := [step71; step72];
     Schema.system_checklists :=
       [{| Schema.sc_id := 100; Schema.sc_system_id := Some 10;
           Schema.sc_template_id := Some 7 |}];
     Schema.checklist_completions := done |}.


Definition request (m : Method) (p : list string) (b : obj) (u : Actor)
  : Request :=
  {| method := m; path := p; query := []; body := b; user := u |}.

(** [POST /1/complete] with an empty body. *)
Definition complete_order1 : Request :=
  request POST ["1"; "complete"] [] staff.

(** [PATCH /1/status] asking for [in_progress]. *)
Definition status_in_progress : Request :=
  request PATCH ["1"; "status"] [("status", VStr "in_progress")] staff.

(** [POST /] delivering external reference WC-1001. *)
Definition create_wc1001 : Request :=
  request POST []
          [("woo_order_id", VStr "WC-1001");
           ("customer_name", VStr "John Doe");
           ("customer_email", VStr "john@example.com");
           ("order_date", VStr "2024-01-15T10:00:00Z");
           ("delivery_method", VStr "shipping")]
          staff.

(** [PATCH /1/priority] with priority 9, sent by a manager. *)
Definition priority_9 : Request :=
  request PATCH ["1"; "priority"] [("priority", VNum 9)] manager.





(** An order last touched at instant 0, as the board receives it. *)
Definition card (status : string) : Kanban.Order :=
  {| Kanban.id := 1;
     Kanban.woo_order_id := "WC-1001";
     Kanban.customer_name := "John Doe";
     Kanban.customer_department := Some "Engineering";
     Kanban.status := status;
     Kanban.priority := 1;
     Kanban.delivery_method := "shipping";
     Kanban.assigned_to := None;
     Kanban.systems := [{| Kanban.system_id := 1; Kanban.system_status := "pending" |}];
     Kanban.updated_at := Some 0 |}.

(** That order as a fetch at instant 172800001 flags it. *)
Definition stale_card : Kanban.OrderWithFlags :=
  {| Kanban.order := card "ordered";
     Kanban.isAssignedToMe := false;
     Kanban.hasUrgentIssue := true |}.

Definition column (v l : string) : Kanban.Column :=
  {| Kanban.value := v; Kanban.label := l |}.

End Scenario.

(* ================================================================== *)
(** ** The order card ([OrderCard] in KanbanBoard.js) *)

Module OrderCard.
Import Kanban.

(** [getPriorityColor] *)
Definition getPriorityColor (priority : Z) : string :=
  if 3 <=? priority then "error"
  else if 2 <=? priority then "warning"
  else "default".

(** [order.priority > 0 && <Chip ... />]: whether the card shows the
    priority chip. *)
Definition showsPriorityChip (o : Order) : bool := 0 <? priority o.

(** [order.hasUrgentIssue && <Chip label="Needs Attention" />]: whether
    the card shows the warning.  The card reads the flag off the order it
    is given from the board's state; it does not look at the clock. *)
Definition needsAttention (o : OrderWithFlags) : bool := hasUrgentIssue o.

(** [getSystemCount], on [order.systems], which may be missing:
    [order.systems?.filter(s => s.status !== 'complete').length || 0]. *)
Definition getSystemCount (systems : option (list SystemItem)) : Z :=
  match systems with
  | Some l =>
      Z.of_nat
        (List.length
           (filter (fun s => negb (String.eqb (system_status s) "complete")) l))
  | None => 0
  end.

(** The columns of the board with their cards, as [KanbanBoard] renders
    them: one [KanbanColumn] per entry of [statuses]. *)
Definition columns (b : Board) : list (Column * list OrderWithFlags) :=
  map (fun col => (col, getOrdersByStatus b (value col))) statuses.

(** All the cards on the board, column after column. *)
Definition cards (b : Board) : list OrderWithFlags :=
  flat_map snd (columns b).

(** Whether a status is the value of some column. *)
Definition has_column (st : string) : bool :=
  existsb (fun col => String.eqb st (value col)) statuses.

End OrderCard.

(* ================================================================== *)
(** ** config/database.js *)

Module Database.

(** [process.env] *)
Definition Env := string -> option string.

(** [process.env.X || d]: an unset or empty variable gives the default. *)
Definition or_default (v : option string) (d : string) : string :=
  match v with
  | Some s => if Js.truthy s then s else d
  | None => d
  end.

(** [process.env.DB_PORT || 5432]: the variable as text, or the number. *)
Inductive Port := PortText (s : string) | PortNumber (n : Z).

Record Fields := {
  database : string;
  username : string;
  password : string;
  host : string;
  port : Port;
  dialect : string
}.

Inductive Config := Url (u : string) | Parts (f : Fields).

Definition getDatabaseConfig (env : Env) : Config :=
  let parts :=
    Parts {| database := or_default (env "DB_NAME") "buildroom_db";
             username := or_default (env "DB_USER") "buildroom_user";
             password := or_default (env "DB_PASSWORD") "changeme";
             host := or_default (env "DB_HOST") "localhost";
             port := match env "DB_PORT" with
                     | Some s => if Js.truthy s then PortText s else PortNumber 5432
                     | None => PortNumber 5432
                     end;
             dialect := "postgres" |} in
  match env "DATABASE_URL" with
  | Some u => if Js.truthy u then Url u else parts
  | None => parts
  end.

End Database.

(* ================================================================== *)
(** ** Reading answers, and further concrete situations *)

Module View.
Import Json Express.

Definition reply (o : Outcome) : option Response :=
  match o with Respond r => Some r | Next _ => None end.

Definition reply_status (o : Outcome) : option Z :=
  option_map statusCode (reply o).

(** A field of the object an answer carries. *)
Definition reply_field (o : Outcome) (k : string) : value :=
  match reply o with
  | Some {| json := VObj fields |} => get fields k
  | _ => VUndefined
  end.

Definition has_key (o : obj) (k : string) : bool :=
  existsb (fun kv => String.eqb (fst kv) k) o.

(** The [error] object of what the error handler sends. *)
Definition error_object (r : Response) : obj :=
  match json r with
  | VObj o => match get o "error" with VObj e => e | _ => [] end
  | _ => []
  end.

(** Requests by route. *)
Definition GET_orders (q b : obj) (u : Actor) : Request :=
  {| method := GET; path := []; query := q; body := b; user := u |}.

Definition GET_order (i : string) (q b : obj) (u : Actor) : Request :=
  {| method := GET; path := [i]; query := q; body := b; user := u |}.

Definition GET_systems (i : string) (q b : obj) (u : Actor) : Request :=
  {| method := GET; path := [i; "systems"]; query := q; body := b; user := u |}.

Definition POST_orders (q b : obj) (u : Actor) : Request :=
  {| method := POST; path := []; query := q; body := b; user := u |}.

End View.

Module Cases.
Import Json Express.

(** An environment that sets only what is listed. *)
Definition env_of (l : list (string * string)) : Database.Env :=
  fun k => option_map snd (find (fun kv => String.eqb (fst kv) k) l).

(** An order assigned to some user, as the board receives it. *)
Definition card_of (u : Z) : Kanban.Order :=
  {| Kanban.id := 2;
     Kanban.woo_order_id := "WC-1002";
     Kanban.customer_name := "Jane Roe";
     Kanban.customer_department := None;
     Kanban.status := "in_progress";
     Kanban.priority := 3;
     Kanban.delivery_method := "delivery";
     Kanban.assigned_to :=
       Some {| Kanban.user_id := u; Kanban.first_name := "Ann";
               Kanban.last_name := "Lee" |};
     Kanban.systems := [];
     Kanban.updated_at := Some 0 |}.

Definition flagged (o : Kanban.Order) : Kanban.OrderWithFlags :=
  {| Kanban.order := o;
     Kanban.isAssignedToMe := Kanban.assignedToMe Kanban.useAuth o;
     Kanban.hasUrgentIssue := Kanban.checkUrgentIssues 0 o |}.

(** The order of the scenario as a fetch at instant 172800000 keeps it. *)
Definition fetched_at_48h : Kanban.OrderWithFlags :=
  {| Kanban.order := Scenario.card "ordered";
     Kanban.isAssignedToMe := false;
     Kanban.hasUrgentIssue := false |}.

(** The stale order of the scenario under another spelling. *)
Definition shouting_card : Kanban.OrderWithFlags :=
  {| Kanban.order :=
       {| Kanban.id := 1;
          Kanban.woo_order_id := "wc-1001";
          Kanban.customer_name := "JOHN DOE";
          Kanban.customer_department := Some "ENGINEERING";
          Kanban.status := "ordered";
          Kanban.priority := 1;
          Kanban.delivery_method := "shipping";
          Kanban.assigned_to := None;
          Kanban.systems := [];
          Kanban.updated_at := Some 0 |};
     Kanban.isAssignedToMe := false;
     Kanban.hasUrgentIssue := true |}.

(** A unique-constraint violation as the database driver reports it. *)
Definition unique_violation : ErrorHandler.JsError :=
  {| ErrorHandler.name := "SequelizeUniqueConstraintError";
     ErrorHandler.message := Some "Key (woo_order_id)=(WC-1001) already exists.";
     ErrorHandler.status := Some 500;
     ErrorHandler.stack := None |}.

(** The configuration for an empty password and host "db". *)
Definition parts_on_db : Database.Fields :=
  {| Database.database := "buildroom_db";
     Database.username := "buildroom_user";
     Database.password := "changeme";
     Database.host := "db";
     Database.port := Database.PortNumber 5432;
     Database.dialect := "postgres" |}.

(** A body that brings its own [id] and [created_at]. *)
Definition body_with_id : obj :=
  [("id", VNum 99); ("woo_order_id", VStr " WC-7 ");
   ("created_at", VStr "1999-01-01")].

End Cases.

(* ================================================================== *)
(** * Properties *)

(** ** Strings *)

Section StringFacts.

Lemma append_empty_inv (a b : string) :
  (a ++ b)%string = EmptyString -> a = EmptyString /\ b = EmptyString.
Proof.
  destruct a; simpl; intros H; [auto | discriminate].
Qed.

Lemma startsWith_spec (s t : string) :
  Js.startsWith s t = true <-> exists post, s = (t ++ post)%string.
Proof.
  revert s; induction t as [| b t IH]; intros s.
  - split; [intros _; exists s; reflexivity | destruct s; reflexivity].
  - destruct s as [| a s]; cbn [Js.startsWith].
    + split; [discriminate | intros [post H]; discriminate].
    + rewrite andb_true_iff, Ascii.eqb_eq, IH. split.
      * intros [-> [post ->]]. exists post. reflexivity.
      * intros [post H]. injection H as -> ->. split; [reflexivity | eauto].
Qed.

Lemma includes_spec (s t : string) :
  Js.includes s t = true <-> exists pre post, s = (pre ++ t ++ post)%string.
Proof.
  induction s as [| a s IH].
  - cbn [Js.includes]. rewrite startsWith_spec. split.
    + intros [post H]. exists EmptyString, post. exact H.
    + intros [pre [post H]]. symmetry in H.
      apply append_empty_inv in H as [_ H]. exists post. symmetry. exact H.
  - cbn [Js.includes]. rewrite orb_true_iff, startsWith_spec, IH. split.
    + intros [[post H] | [pre [post H]]].
      * exists EmptyString, post. exact H.
      * exists (String a pre), post. simpl. rewrite H. reflexivity.
    + intros [[| c pre] [post H]].
      * left. exists post. exact H.
      * right. simpl in H. injection H as _ H. exists pre, post. exact H.
Qed.

Lemma truthy_spec (s : string) : Js.truthy s = true <-> s <> EmptyString.
Proof.
  destruct s; simpl; split; congruence.
Qed.

End StringFacts.

(** ** The kanban board *)

Section KanbanFacts.
Import Kanban Spec.

Lemma fetchOrders_In (now : Z) (user : AuthUser) (data : list Order)
      (o : OrderWithFlags) :
  In o (fetchOrders now user data) ->
  isAssignedToMe o = assignedToMe user (order o)
  /\ hasUrgentIssue o = checkUrgentIssues now (order o).
Proof.
  unfold fetchOrders. rewrite in_map_iff.
  intros [x [<- _]]. split; reflexivity.
Qed.

Lemma checkUrgentIssues_spec (now : Z) (o : Order) :
  checkUrgentIssues now o = true <->
  status o <> "complete"
  /\ exists t, updated_at o = Some t /\ now - t > 48 * 60 * 60 * 1000.
Proof.
  unfold checkUrgentIssues, maxDuration.
  destruct (updated_at o) as [t |].
  - rewrite andb_true_iff, negb_true_iff, Z.ltb_lt, String.eqb_neq. split.
    + intros [Hlt Hne]. split; [exact Hne |]. exists t. split; [reflexivity | lia].
    + intros [Hne [t' [Ht Hgt]]]. injection Ht as <-. split; [lia | exact Hne].
  - split; [discriminate |]. intros [_ [t [Ht _]]]. discriminate.
Qed.

Lemma assignedToMe_spec (user : AuthUser) (o : Order) :
  assignedToMe user o = true <-> assigned_to_user user o.
Proof.
  unfold assignedToMe, assigned_to_user.
  destruct (assigned_to o) as [u |].
  - rewrite Z.eqb_eq. split.
    + intros H. exists u. auto.
    + intros [u' [Hu H]]. injection Hu as <-. exact H.
  - split; [discriminate | intros [u [Hu _]]; discriminate].
Qed.

Lemma search_spec (term : string) (o : Order) :
  (Js.includes (Js.toLowerCase (woo_order_id o)) (Js.toLowerCase term)
   || Js.includes (Js.toLowerCase (customer_name o)) (Js.toLowerCase term)
   || match customer_department o with
      | Some d => Js.includes (Js.toLowerCase d) (Js.toLowerCase term)
      | None => false
      end) = true
  <-> search_matches term o.
Proof.
  unfold search_matches, contains_ci.
  rewrite !orb_true_iff, !includes_spec.
  destruct (customer_department o) as [d |].
  - rewrite includes_spec. split.
    + intros [[H | H] | H]; [left | right; left | right; right]; auto.
      exists d. auto.
    + intros [H | [H | [d' [Hd H]]]]; [left; left | left; right | right]; auto.
      injection Hd as <-. exact H.
  - split.
    + intros [[H | H] | H]; [left | right; left | discriminate]; auto.
    + intros [H | [H | [d' [Hd _]]]]; [left; left | left; right | discriminate]; auto.
Qed.

Lemma guard_spec (mode name : string) (bad : bool) :
  negb (String.eqb mode name && bad) = true <-> (mode = name -> bad = false).
Proof.
  destruct (String.eqb_spec mode name) as [E | E]; destruct bad; cbn;
    split; auto; try congruence.
  intros H. specialize (H E). discriminate.
Qed.

Lemma keepOrder_unfold (mode term : string) (o : OrderWithFlags) :
  keepOrder mode term o =
  negb (String.eqb mode "assigned" && negb (isAssignedToMe o))
  && negb (String.eqb mode "unassigned"
           && match assigned_to (order o) with Some _ => true | None => false end)
  && (if Js.truthy term
      then Js.includes (Js.toLowerCase (woo_order_id (order o))) (Js.toLowerCase term)
           || Js.includes (Js.toLowerCase (customer_name (order o))) (Js.toLowerCase term)
           || match customer_department (order o) with
              | Some d => Js.includes (Js.toLowerCase d) (Js.toLowerCase term)
              | None => false
              end
      else true).
Proof.
  unfold keepOrder.
  destruct (String.eqb mode "assigned" && negb (isAssignedToMe o)); [reflexivity |].
  destruct (String.eqb mode "unassigned"
            && match assigned_to (order o) with Some _ => true | None => false end);
    reflexivity.
Qed.

(** The filter callback keeps an order exactly when every active filter
    accepts it. *)
Lemma keepOrder_spec (mode term : string) (o : OrderWithFlags) :
  keepOrder mode term o = true <->
  (mode = "assigned" -> isAssignedToMe o = true)
  /\ (mode = "unassigned" -> assigned_to (order o) = None)
  /\ (term <> "" -> search_matches term (order o)).
Proof.
  rewrite keepOrder_unfold, !andb_true_iff, !guard_spec, <- and_assoc.
  assert (Hsearch :
            (if Js.truthy term
             then Js.includes (Js.toLowerCase (woo_order_id (order o))) (Js.toLowerCase term)
                  || Js.includes (Js.toLowerCase (customer_name (order o))) (Js.toLowerCase term)
                  || match customer_department (order o) with
                     | Some d => Js.includes (Js.toLowerCase d) (Js.toLowerCase term)
                     | None => false
                     end
             else true) = true
            <-> (term <> "" -> search_matches term (order o))).
  { destruct term as [| c term]; cbn [Js.truthy].
    - split; [intros _ H; congruence | reflexivity].
    - rewrite search_spec. split; [auto | intros H; apply H; discriminate]. }
  rewrite Hsearch.
  assert (Hflag : negb (isAssignedToMe o) = false <-> isAssignedToMe o = true)
    by (destruct (isAssignedToMe o); cbn; split; congruence).
  assert (Hnone : match assigned_to (order o) with Some _ => true | None => false end
                  = false <-> assigned_to (order o) = None)
    by (destruct (assigned_to (order o)); split; congruence).
  rewrite Hflag, Hnone. tauto.
Qed.

(** C7 fails on the board.  The flag is computed by the fetch and kept in
    the board's state, and the card shows what is kept without looking at
    the clock.  An order last updated at instant 0 and fetched at
    172800000, exactly 48 hours later, is kept as not urgent; when the
    card renders one millisecond later it still shows no warning, although
    the order is not complete and more than 48 hours have passed. *)
Lemma urgent_flag_is_stale_after_the_fetch :
  In Cases.fetched_at_48h
     (fetchOrders 172800000 useAuth [Scenario.card "ordered"])
  /\ OrderCard.needsAttention Cases.fetched_at_48h = false
  /\ status (order Cases.fetched_at_48h) <> "complete"
  /\ updated_at (order Cases.fetched_at_48h) = Some 0
  /\ 172800001 - 0 > 48 * 60 * 60 * 1000.
Proof.
  split; [left; reflexivity |].
  split; [reflexivity |].
  split; [discriminate |].
  split; [reflexivity | lia].
Qed.

(** C7, as the board has it.  The warning a card shows is the flag of the
    last fetch: a function of the clock at that fetch and of the order as
    fetched, recomputed by every fetch and kept in the board's state until
    the next.  It is true exactly when, at the instant of the fetch, the
    order's status was not complete and more than 48 hours had passed
    since [updated_at]. *)
Theorem urgent_flag_is_as_of_the_fetch
        (fetched : Z) (user : AuthUser) (data : list Order) (o : OrderWithFlags) :
  In o (fetchOrders fetched user data) ->
  OrderCard.needsAttention o = checkUrgentIssues fetched (order o)
  /\ (OrderCard.needsAttention o = true <->
      status (order o) <> "complete"
      /\ exists t, updated_at (order o) = Some t
                   /\ fetched - t > 48 * 60 * 60 * 1000).
Proof.
  intros Hin. apply fetchOrders_In in Hin as [_ Hflag].
  unfold OrderCard.needsAttention.
  split; [exact Hflag |].
  rewrite Hflag. apply checkUrgentIssues_spec.
Qed.

Lemma urgent_flag_is_as_of_the_fetch_witness :
  In Scenario.stale_card
     (fetchOrders 172800001 useAuth [Scenario.card "ordered"])
  /\ OrderCard.needsAttention Scenario.stale_card
     = checkUrgentIssues 172800001 (order Scenario.stale_card)
  /\ (OrderCard.needsAttention Scenario.stale_card = true <->
      status (order Scenario.stale_card) <> "complete"
      /\ exists t, updated_at (order Scenario.stale_card) = Some t
                   /\ 172800001 - t > 48 * 60 * 60 * 1000).
Proof.
  split; [left; reflexivity |].
  apply (urgent_flag_is_as_of_the_fetch
           172800001 useAuth [Scenario.card "ordered"] Scenario.stale_card).
  left; reflexivity.
Defined.

(** The same order one millisecond earlier, and a completed one. *)
Example not_urgent_at_48h :
  checkUrgentIssues 172800000 (Scenario.card "ordered") = false
  /\ checkUrgentIssues 172800001 (Scenario.card "ordered") = true
  /\ checkUrgentIssues 999999999 (Scenario.card "complete") = false.
Proof. repeat split. Qed.

Lemma getOrdersByStatus_filter (b : Board) (st : string) :
  getOrdersByStatus b st =
  filter (fun o => keepOrder (filterMode b) (searchTerm b) o
                   && String.eqb (status (order o)) st)
         (orders b).
Proof.
  unfold getOrdersByStatus, filteredOrders.
  induction (orders b) as [| o l IH]; [reflexivity |].
  cbn [filter].
  destruct (keepOrder (filterMode b) (searchTerm b) o); cbn [filter andb];
    rewrite IH; reflexivity.
Qed.

(** C8. The order list of a column is a projection of the board's
    orders: an order is listed exactly when it is on the board and
    passes all the active filters together, namely the column's status,
    the assignment filter (assigned to the acting user, or unassigned,
    that is [assigned_to] null) and, when a search term is set, a
    case-insensitive substring match in the external reference id, the
    customer name or the department.  The read path is a function of the
    board and hands back a list; it has no other effect. *)
Theorem order_list_is_filter_projection
        (now : Z) (user : AuthUser) (data : list Order)
        (mode term st : string) (o : OrderWithFlags) :
  In o (getOrdersByStatus (board now user data mode term) st) <->
  In o (orders (board now user data mode term))
  /\ status (order o) = st
  /\ (mode = "assigned" -> assigned_to_user user (order o))
  /\ (mode = "unassigned" -> assigned_to (order o) = None)
  /\ (term <> "" -> search_matches term (order o)).
Proof.
  rewrite getOrdersByStatus_filter, filter_In, andb_true_iff,
    keepOrder_spec, String.eqb_eq.
  cbn [board orders filterMode searchTerm].
  split.
  - intros [Hin [[Ha [Hu Hs]] Hst]].
    destruct (fetchOrders_In _ _ _ _ Hin) as [Hme _].
    repeat split; auto.
    intros Hm. apply assignedToMe_spec. rewrite <- Hme. auto.
  - intros [Hin [Hst [Ha [Hu Hs]]]].
    destruct (fetchOrders_In _ _ _ _ Hin) as [Hme _].
    repeat split; auto.
    intros Hm. rewrite Hme. apply assignedToMe_spec. auto.
Qed.

(** Searching "wc-10" among the unassigned orders of the ordered column. *)
Example search_unassigned_ordered :
  map (fun o => woo_order_id (order o))
      (getOrdersByStatus
         (board 0 useAuth [Scenario.card "ordered"; Scenario.card "complete"]
                "unassigned" "wc-10")
         "ordered")
  = ["WC-1001"]
  /\ getOrdersByStatus
       (board 0 useAuth [Scenario.card "ordered"] "assigned" "") "ordered"
     = [].
Proof. split; reflexivity. Qed.

(** C10. Dropping a card on the column of its own status issues no
    request at all: neither the status update nor the refresh. *)
Theorem drop_on_own_column_is_silent (col : Column) (o : Order) :
  status o = value col -> drop col (dragItem o) = [].
Proof.
  intros H. unfold drop, dragItem. cbn [currentStatus item_id].
  rewrite H, String.eqb_refl. reflexivity.
Qed.

Lemma drop_on_own_column_is_silent_witness :
  status (Scenario.card "qa_review")
  = value (Scenario.column "qa_review" "QA Review")
  /\ drop (Scenario.column "qa_review" "QA Review")
          (dragItem (Scenario.card "qa_review")) = [].
Proof.
  split; [reflexivity |].
  apply (drop_on_own_column_is_silent
           (Scenario.column "qa_review" "QA Review")
           (Scenario.card "qa_review")).
  reflexivity.
Defined.

(** A drop on any other column asks for the update and then refreshes. *)
Lemma drop_on_other_column (col : Column) (o : Order) :
  status o <> value col ->
  drop col (dragItem o) = [UpdateOrderStatus (id o) (value col); GetOrders].
Proof.
  intros H. unfold drop, dragItem, handleOrderDrop.
  cbn [currentStatus item_id].
  apply String.eqb_neq in H. rewrite H. reflexivity.
Qed.

End KanbanFacts.

(** ** Completion of a system *)

Section LifecycleFacts.
Import Schema Lifecycle Spec.

Lemma refs_spec (col : option Z) (k : Z) : refs col k = true <-> col = Some k.
Proof.
  destruct col as [r |]; cbn; [| split; discriminate].
  rewrite Z.eqb_eq. split; congruence.
Qed.

Lemma is_set_spec {A} (col : option A) : is_set col = true <-> col <> None.
Proof.
  destruct col; cbn; split; congruence.
Qed.

Lemma qa_satisfied_spec (required : bool) (col : option Z) :
  negb required || is_set col = true <-> (required = true -> col <> None).
Proof.
  destruct required; cbn [negb orb].
  - rewrite is_set_spec. tauto.
  - split; [discriminate | reflexivity].
Qed.

Lemma step_done_spec (st : Store) (c : system_checklists_row)
      (s : checklist_steps_row) :
  step_done st c s = true <-> step_recorded st c s.
Proof.
  unfold step_done, step_recorded. rewrite existsb_exists.
  split; intros [r H]; exists r; revert H;
    rewrite !andb_true_iff, !refs_spec, is_set_spec, qa_satisfied_spec; tauto.
Qed.

Lemma steps_of_spec (st : Store) (c : system_checklists_row)
      (s : checklist_steps_row) :
  In s (steps_of st c) <-> step_of st c s.
Proof.
  unfold steps_of, step_of. destruct (sc_template_id c) as [t |].
  - rewrite filter_In, refs_spec. split.
    + intros [Hin Ht]. split; [exact Hin | exists t; auto].
    + intros [Hin [t' [Hc Hs]]]. injection Hc as <-. auto.
  - split; [intros [] | intros [_ [t [Hc _]]]; discriminate].
Qed.

Lemma no_survivor {A} (f : A -> bool) (l : list A) :
  Nat.eqb (List.length (filter f l)) 0 = true <->
  forall x, In x l -> f x = false.
Proof.
  induction l as [| a l IH]; cbn [filter].
  - split; [intros _ x [] | reflexivity].
  - destruct (f a) eqn:Ha; cbn [List.length Nat.eqb].
    + split; [discriminate |].
      intros H. rewrite (H a) in Ha by (left; reflexivity). discriminate.
    + rewrite IH. split.
      * intros H x [<- | Hx]; auto.
      * intros H x Hx. apply H. right. exact Hx.
Qed.

Lemma incomplete_steps_none (st : Store) (c : system_checklists_row) :
  Nat.eqb (List.length (incomplete_steps st c)) 0 = true <->
  forall s, step_of st c s -> step_recorded st c s.
Proof.
  unfold incomplete_steps. rewrite no_survivor. split.
  - intros H s Hs. apply step_done_spec.
    apply steps_of_spec in Hs. apply H in Hs.
    apply negb_false_iff. exact Hs.
  - intros H s Hs. apply negb_false_iff, step_done_spec, H, steps_of_spec, Hs.
Qed.

Lemma checklists_of_spec (st : Store) (sys : systems_row)
      (c : system_checklists_row) :
  In c (checklists_of st sys) <-> checklist_of st sys c.
Proof.
  unfold checklists_of, checklist_of. rewrite filter_In, refs_spec. tauto.
Qed.

(** In a complete system every step of the checklist is recorded. *)
Lemma derived_complete_sound (st : Store) (sys : systems_row) :
  derived_complete st sys = true ->
  forall c s, checklist_of st sys c -> step_of st c s -> step_recorded st c s.
Proof.
  unfold derived_complete. rewrite forallb_forall.
  intros H c s Hc Hs. apply checklists_of_spec in Hc.
  apply (proj1 (incomplete_steps_none st c) (H c Hc) s Hs).
Qed.

(** A system all of whose steps are recorded is complete. *)
Lemma derived_complete_complete (st : Store) (sys : systems_row) :
  (forall c s, checklist_of st sys c -> step_of st c s -> step_recorded st c s) ->
  derived_complete st sys = true.
Proof.
  intros H. unfold derived_complete. apply forallb_forall.
  intros c Hc. apply checklists_of_spec in Hc.
  apply incomplete_steps_none. intros s Hs. apply (H c s Hc Hs).
Qed.

(** C2. A system's derived status is complete if and only if every step
    of its instantiated checklist has a completion record with a
    completion timestamp and, when the step requires QA, a QA-check
    timestamp as well. *)
Theorem derived_complete_iff (st : Store) (sys : systems_row) :
  derived_complete st sys = true <->
  forall c s, checklist_of st sys c -> step_of st c s -> step_recorded st c s.
Proof.
  split; [apply derived_complete_sound | apply derived_complete_complete].
Qed.

(** Read from left to right: in a complete system every step either
    requires no QA and has a completion timestamp, or has both
    timestamps. *)
Corollary complete_steps_have_timestamps (st : Store) (sys : systems_row)
          (c : system_checklists_row) (s : checklist_steps_row) :
  derived_complete st sys = true ->
  checklist_of st sys c -> step_of st c s ->
  exists r,
    In r (checklist_completions st)
    /\ cc_step_id r = Some (st_id s)
    /\ ((st_requires_qa s = false /\ cc_completed_at r <> None)
        \/ (cc_completed_at r <> None /\ cc_qa_checked_at r <> None)).
Proof.
  intros Hd Hc Hs.
  destruct (derived_complete_sound st sys Hd c s Hc Hs)
    as [r [Hin [_ [Hstep [Hdone Hqa]]]]].
  exists r. repeat split; auto.
  destruct (st_requires_qa s); [right | left]; auto.
Qed.

(** Section 8's example: the system stays incomplete after step 71,
    stays incomplete when step 72 is done by the worker only, and is
    complete once step 72 has been QA-checked. *)
Example two_step_checklist :
  derived_complete (Scenario.order1_store "ordered" []) Scenario.system10 = false
  /\ derived_complete
       (Scenario.order1_store "ordered" [Scenario.completion 1 71 None])
       Scenario.system10 = false
  /\ derived_complete
       (Scenario.order1_store "ordered"
          [Scenario.completion 1 71 None; Scenario.completion 2 72 None])
       Scenario.system10 = false
  /\ derived_complete
       (Scenario.order1_store "ordered"
          [Scenario.completion 1 71 None; Scenario.completion 2 72 (Some 2000)])
       Scenario.system10 = true.
Proof. repeat split. Qed.

End LifecycleFacts.

(** ** The orders API *)

Section ApiFacts.
Import Json Express Spec.
Variable P : Platform.t.

(** No request changes the store. *)
Lemma handle_keeps_store (st : Schema.Store) (t : Z) (rq : Request) :
  fst (Server.handle P st t rq) = st.
Proof. reflexivity. Qed.

(** A validation chain never answers: whatever it finds, the next
    handler runs. *)
Lemma chain_calls_next (f : ExpressValidator.Field)
      (steps : list ExpressValidator.Step) (c : Ctx) :
  exists c', ExpressValidator.chain P f steps c = Next c'.
Proof.
  unfold ExpressValidator.chain.
  destruct (ExpressValidator.run_chain P f steps (body (req c))) as [b' es].
  eexists. reflexivity.
Qed.

(** [POST /:id/complete] is answered 200 with status complete, for every
    store, id, body and actor. *)
Lemma complete_always_answers_200 (st : Schema.Store) (t : Z) (i : string)
      (q b : obj) (u : Actor) :
  i <> "" ->
  snd (Server.handle P st t
         {| method := POST; path := [i; "complete"]; query := q;
            body := b; user := u |})
  = Respond
      {| statusCode := 200;
         json := VObj [("id", of_parseInt (Js.parseInt i));
                       ("status", VStr "complete");
                       ("tracking_number", get b "tracking_number");
                       ("delivery_confirmation", get b "delivery_confirmation");
                       ("final_notes", get b "final_notes");
                       ("completed_at", VStr (Platform.toISOString P t))] |}.
Proof.
  intros Hi. destruct i as [| a i]; [congruence |]. reflexivity.
Qed.

(** [PATCH /:id/status] is answered 200 with the requested status, for
    every store, id, body and actor. *)
Lemma status_always_answers_200 (st : Schema.Store) (t : Z) (i : string)
      (q b : obj) (u : Actor) :
  i <> "" ->
  snd (Server.handle P st t
         {| method := PATCH; path := [i; "status"]; query := q;
            body := b; user := u |})
  = Respond
      {| statusCode := 200;
         json := VObj [("id", of_parseInt (Js.parseInt i));
                       ("status", get b "status");
                       ("updated_at", VStr (Platform.toISOString P t))] |}.
Proof.
  intros Hi. destruct i as [| a i]; [congruence |]. reflexivity.
Qed.

(** [PATCH /:id/priority] from a manager or an admin is answered 200
    with the priority of the body, whatever that is. *)
Lemma priority_always_answers_200 (st : Schema.Store) (t : Z) (i : string)
      (q b : obj) (u : Actor) :
  i <> "" -> role u = "manager" \/ role u = "admin" ->
  snd (Server.handle P st t
         {| method := PATCH; path := [i; "priority"]; query := q;
            body := b; user := u |})
  = Respond
      {| statusCode := 200;
         json := VObj [("id", of_parseInt (Js.parseInt i));
                       ("priority", get b "priority");
                       ("updated_at", VStr (Platform.toISOString P t))] |}.
Proof.
  intros Hi Hrole. destruct i as [| a i]; [congruence |].
  destruct u as [uid r]. cbn [role] in Hrole.
  destruct Hrole as [-> | ->]; reflexivity.
Qed.

(** [POST /] is answered 201, whatever the body and the store. *)
Lemma create_always_answers_201 (st : Schema.Store) (t : Z)
      (q b : obj) (u : Actor) :
  Server.answer_status
    (Server.handle P st t
       {| method := POST; path := []; query := q; body := b; user := u |})
  = Some 201.
Proof.
  unfold Server.answer_status, Server.answer, Server.handle.
  cbn [snd dispatch OrderRoutes.router method_eqb method path req
           Server.fresh match_path run_stack].
  repeat match goal with
         | |- context [ExpressValidator.chain P ?f ?s ?c] =>
             let c' := fresh "c" in
             let E := fresh "E" in
             destruct (chain_calls_next f s c) as [c' E]; rewrite E; clear E
         end.
  reflexivity.
Qed.

(** *** The validation layer is out of reach

    Every route ends in a controller that answers, and the handlers before
    it either pass on or answer themselves; so a request that matches a
    route never gets to the layer registered after the routes, and a
    request that matches none arrives there with nothing recorded. *)

Lemma closed_stack_answers (before : list Handler) (last : Handler) :
  Forall passes_on before -> answers last ->
  forall c, exists r,
      run_stack (before ++ [last])%list c = Respond r /\ statusCode r <> 400.
Proof.
  intros Hb Hl. induction Hb as [| h before Hh _ IH]; intros c; cbn.
  - destruct (Hl c) as [r [E Hr]]. rewrite E. eauto.
  - destruct (Hh c) as [[c' E] | [r [E Hr]]]; rewrite E; eauto.
Qed.

Lemma closed_layers_dispatch (routes : list Layer) (c : Ctx) :
  Forall closed_layer routes ->
  errors c = [] ->
  (exists r, dispatch (routes ++ [Use OrderRoutes.validationErrors])%list c
             = Respond r /\ statusCode r <> 400)
  \/ dispatch (routes ++ [Use OrderRoutes.validationErrors])%list c = Next c.
Proof.
  intros Hr Hc. induction Hr as [| l routes Hl _ IH]; cbn.
  - right. unfold OrderRoutes.validationErrors. rewrite Hc. reflexivity.
  - destruct Hl as [m pattern before last Hb Hlast].
    destruct (method_eqb m (method (req c))); [| exact IH].
    destruct (match_path pattern (path (req c))) as [ps |]; [| exact IH].
    destruct (closed_stack_answers before last Hb Hlast (with_params c ps))
      as [r [E Hne]].
    rewrite E. left. eauto.
Qed.

Lemma chain_passes_on (f : ExpressValidator.Field)
      (steps : list ExpressValidator.Step) :
  passes_on (ExpressValidator.chain P f steps).
Proof.
  intros c. left. apply chain_calls_next.
Qed.

Lemma authorize_passes_on (roles : list string) :
  passes_on (Auth.authorize roles).
Proof.
  intros c. unfold Auth.authorize.
  destruct (existsb (String.eqb (role (user (req c)))) roles).
  - left. eauto.
  - right. eexists. split; [reflexivity | cbn; discriminate].
Qed.

Lemma bulkAssignOrders_answers : answers OrderController.bulkAssignOrders.
Proof.
  intros c. unfold OrderController.bulkAssignOrders.
  destruct (get (body (req c)) "order_ids");
    (eexists; split; [reflexivity | cbn; discriminate]).
Qed.

Lemma router_closed :
  exists routes,
    OrderRoutes.router P = (routes ++ [Use OrderRoutes.validationErrors])%list
    /\ Forall closed_layer routes.
Proof.
  exists (removelast (OrderRoutes.router P)). split; [reflexivity |].
  unfold OrderRoutes.router. cbn [removelast].
  repeat match goal with
         | |- Forall _ [] => constructor
         | |- Forall _ (_ :: _) => constructor
         | |- closed_layer (Route ?m ?p [?a]) =>
             apply (closed_route m p [] a)
         | |- closed_layer (Route ?m ?p [?a; ?b]) =>
             apply (closed_route m p [a] b)
         | |- closed_layer (Route ?m ?p [?a; ?b; ?c]) =>
             apply (closed_route m p [a; b] c)
         | |- closed_layer (Route ?m ?p [?a; ?b; ?c; ?d; ?e]) =>
             apply (closed_route m p [a; b; c; d] e)
         | |- closed_layer (Route ?m ?p [?a; ?b; ?c; ?d; ?e; ?f]) =>
             apply (closed_route m p [a; b; c; d; e] f)
         | |- passes_on (ExpressValidator.chain _ _ _) => apply chain_passes_on
         | |- passes_on (Auth.authorize _) => apply authorize_passes_on
         | |- answers OrderController.bulkAssignOrders =>
             apply bulkAssignOrders_answers
         | |- answers _ =>
             intros c; eexists; split; [reflexivity | cbn; discriminate]
         end.
Qed.

(** No request to the orders router is ever answered 400: whatever the
    validation chains record, nobody reads it. *)
Lemma router_never_answers_400 (st : Schema.Store) (t : Z) (rq : Request) :
  Server.answer_status (Server.handle P st t rq) <> Some 400.
Proof.
  unfold Server.answer_status, Server.answer, Server.handle. cbn [snd].
  destruct router_closed as [routes [-> Hclosed]].
  destruct (closed_layers_dispatch routes (Server.fresh t rq) Hclosed eq_refl)
    as [[r [E Hne]] | E]; rewrite E; cbn; congruence.
Qed.

(** C1. Order 1 owns system 10, whose checklist has no completed step,
    so system 10 blocks the order; [POST /1/complete] is nevertheless
    answered 200 with status complete and names no system.  The stored
    status is left as it was. *)
Theorem complete_ignores_blocking_systems :
  map Schema.s_id
      (Lifecycle.blocking_systems (Scenario.order1_store "in_progress" []) 1)
  = [10]
  /\ Server.answer_status
       (Server.handle P (Scenario.order1_store "in_progress" []) 0
                      Scenario.complete_order1)
     = Some 200
  /\ Server.answer_field
       (Server.handle P (Scenario.order1_store "in_progress" []) 0
                      Scenario.complete_order1) "status"
     = VStr "complete"
  /\ option_map Schema.o_status
       (Schema.find_order
          (fst (Server.handle P (Scenario.order1_store "in_progress" []) 0
                              Scenario.complete_order1)) 1)
     = Some "in_progress".
Proof. repeat split. Qed.

(** C3. Order 1 is in progress; [PATCH /1/status] asking for
    [in_progress] again is answered 200 with that status, not with an
    error. *)
Theorem same_status_transition_accepted :
  option_map Schema.o_status
    (Schema.find_order (Scenario.order1_store "in_progress" []) 1)
  = Some "in_progress"
  /\ Server.answer_status
       (Server.handle P (Scenario.order1_store "in_progress" []) 0
                      Scenario.status_in_progress)
     = Some 200
  /\ Server.answer_field
       (Server.handle P (Scenario.order1_store "in_progress" []) 0
                      Scenario.status_in_progress) "status"
     = VStr "in_progress".
Proof. repeat split. Qed.

(** C4. External reference WC-1001 delivered twice: both calls are
    answered 201, and no order with that reference is in the store
    afterwards. *)
Theorem duplicate_external_reference_accepted :
  Server.answer_status
    (Server.handle P Scenario.empty_store 0 Scenario.create_wc1001)
  = Some 201
  /\ Server.answer_status
       (Server.handle P
          (fst (Server.handle P Scenario.empty_store 0 Scenario.create_wc1001))
          1 Scenario.create_wc1001)
     = Some 201
  /\ Schema.count_external_ref
       (fst (Server.handle P
               (fst (Server.handle P Scenario.empty_store 0
                                   Scenario.create_wc1001))
               1 Scenario.create_wc1001))
       "WC-1001"
     = 0%nat.
Proof.
  split; [apply create_always_answers_201 |].
  split; [apply create_always_answers_201 | reflexivity].
Qed.

(** A chain without a sanitizer leaves the request as it found it and
    only adds to the errors. *)
Lemma plain_chain_keeps_request
      (f : ExpressValidator.Field) (steps : list ExpressValidator.Step)
      (m : Method) (p : list string) (q b : obj) (u : Actor)
      (ps : list (string * string)) (es : list ValidationError) (t : Z) :
  ExpressValidator.sanitizes steps = false ->
  exists es',
    ExpressValidator.chain P f steps
      {| req := {| method := m; path := p; query := q; body := b; user := u |};
         params := ps; errors := es; now := t |}
    = Next
        {| req := {| method := m; path := p; query := q; body := b; user := u |};
           params := ps; errors := es'; now := t |}.
Proof.
  intros H. unfold ExpressValidator.chain, ExpressValidator.run_chain.
  cbn [req body method path query user params errors now].
  destruct f as [k | k].
  - destruct (ExpressValidator.run_steps P steps k (get b k)) as [v' es'].
    rewrite H. eexists. reflexivity.
  - destruct (get b k) as [| | | | | | l | o]; try (eexists; reflexivity).
    + destruct (ExpressValidator.run_each P steps k 0 l) as [l' es'].
      rewrite H. eexists. reflexivity.
    + destruct (ExpressValidator.run_props P steps k o) as [o' es'].
      rewrite H. eexists. reflexivity.
Qed.

(** [POST /bulk-assign] from a manager or an admin with an array under
    [order_ids] is answered 200 with [updated] the length of the array,
    whatever the ids are and whatever the store holds. *)
Lemma bulk_assign_always_answers_200 (st : Schema.Store) (t : Z)
      (q b : obj) (u : Actor) (l : list value) :
  role u = "manager" \/ role u = "admin" ->
  get b "order_ids" = VArr l ->
  snd (Server.handle P st t
         {| method := POST; path := ["bulk-assign"]; query := q;
            body := b; user := u |})
  = Respond
      {| statusCode := 200;
         json := VObj [("updated", VNum (Z.of_nat (List.length l)));
                       ("order_ids", VArr l);
                       ("assigned_to", get b "user_id")] |}.
Proof.
  intros Hrole Hids. destruct u as [uid r]. cbn [role] in Hrole.
  unfold Server.handle, Server.fresh, OrderRoutes.router.
  cbn [snd dispatch method_eqb method path req match_path run_stack
       Js.truthy option_map with_params params errors now].
  rewrite String.eqb_refl.
  cbn [run_stack with_params params errors now req].
  assert (Hgate : forall c,
             role (user (req c)) = r ->
             Auth.authorize ["manager"; "admin"] c = Next c).
  { intros c Hc. unfold Auth.authorize. rewrite Hc.
    destruct Hrole as [-> | ->]; reflexivity. }
  rewrite Hgate by reflexivity.
  unfold with_params. cbn [req params errors now].
  repeat match goal with
         | |- context [ExpressValidator.chain P ?f ?s
                         {| req := {| method := ?m; path := ?p; query := ?q0;
                                      body := ?b0; user := ?u0 |};
                            params := ?ps; errors := ?es; now := ?t0 |}] =>
             let E := fresh "E" in
             destruct (plain_chain_keeps_request f s m p q0 b0 u0 ps es t0 eq_refl)
               as [? E];
             rewrite E; clear E
         end.
  unfold OrderController.bulkAssignOrders. cbn [req body].
  rewrite Hids. reflexivity.
Qed.


(** C6. A manager sets priority 9.  The validation chain of the route
    records the value as invalid and calls [next()]; [updatePriority]
    runs and answers 200 with priority 9.  The layer that would turn the
    recorded error into a 400 is registered after the routes and is
    never reached. *)
Theorem out_of_range_priority_reaches_update :
  (exists c,
      ExpressValidator.chain P (ExpressValidator.Key "priority")
        [ExpressValidator.isInt (Some 0) (Some 5)]
        (Server.fresh 0 Scenario.priority_9) = Next c
      /\ errors c = [ExpressValidator.invalid "priority" (VNum 9)])
  /\ Server.answer_status
       (Server.handle P Scenario.empty_store 0 Scenario.priority_9)
     = Some 200
  /\ Server.answer_field
       (Server.handle P Scenario.empty_store 0 Scenario.priority_9)
       "priority"
     = VNum 9.
Proof.
  split; [eexists; split; reflexivity |].
  split; reflexivity.
Qed.

(** Had the layer been consulted, the answer would have been 400. *)
Example validation_layer_would_refuse :
  exists c,
    ExpressValidator.chain P (ExpressValidator.Key "priority")
      [ExpressValidator.isInt (Some 0) (Some 5)]
      (Server.fresh 0 Scenario.priority_9) = Next c
    /\ option_map statusCode
         (match OrderRoutes.validationErrors c with
          | Respond r => Some r
          | Next _ => None
          end)
       = Some 400.
Proof. eexists. split; reflexivity. Qed.

(** The controller's own catch sends the message of what it caught. *)
Example controller_catch_sends_message :
  snd (Server.handle P Scenario.empty_store 0
         (Scenario.request POST ["bulk-assign"] [("user_id", VNum 4)]
                           Scenario.manager))
  = Respond
      {| statusCode := 500;
         json := VObj [("error",
                        VStr "Cannot read properties of undefined (reading 'length')")] |}.
Proof. reflexivity. Qed.

End ApiFacts.

(** ** The error handler *)

Section ErrorFacts.
Import Json Express ErrorHandler.





(** The recognised names get a fixed message instead. *)
Example unique_violation_is_generic :
  sent_message
    (snd (errorHandler None
            {| name := "SequelizeUniqueConstraintError";
               message := Some "Key (woo_order_id)=(WC-1001) already exists.";
               status := None; stack := None |}))
  = VStr "Duplicate Entry".
Proof. reflexivity. Qed.

End ErrorFacts.

(* ================================================================== *)
(** * Further properties of the board *)

Section BoardFacts.
Import Kanban Spec OrderCard.

(** A fetch keeps every order the service delivered, in the order
    delivered and unchanged; it only adds the two flags. *)
Theorem fetchOrders_keeps_orders (now : Z) (user : AuthUser) (data : list Order) :
  map order (fetchOrders now user data) = data
  /\ List.length (fetchOrders now user data) = List.length data.
Proof.
  unfold fetchOrders. split.
  - rewrite map_map. cbn [order]. apply map_id.
  - apply length_map.
Qed.

(** Once an order is flagged urgent it stays flagged at every later
    instant, as long as its status and [updated_at] stay as they are. *)
Theorem urgent_flag_persists (now later : Z) (o : Order) :
  checkUrgentIssues now o = true -> now <= later ->
  checkUrgentIssues later o = true.
Proof.
  intros H Hle.
  apply checkUrgentIssues_spec in H as [Hst [t [Ht Hgt]]].
  apply checkUrgentIssues_spec. split; [exact Hst |].
  exists t. split; [exact Ht | lia].
Qed.

Lemma urgent_flag_persists_witness :
  checkUrgentIssues 172800001 (Scenario.card "ordered") = true
  /\ checkUrgentIssues 999999999 (Scenario.card "ordered") = true.
Proof.
  split; [reflexivity |].
  apply (urgent_flag_persists 172800001 999999999 (Scenario.card "ordered"));
    [reflexivity | lia].
Defined.

(** With the filter on anything but "assigned" or "unassigned" and no
    search term, nothing is hidden: the filtered list is the list. *)
Theorem no_filter_shows_all (l : list OrderWithFlags) (mode : string) :
  mode <> "assigned" -> mode <> "unassigned" ->
  filteredOrders {| orders := l; filterMode := mode; searchTerm := "" |} = l.
Proof.
  intros Ha Hu. unfold filteredOrders. cbn [orders filterMode searchTerm].
  induction l as [| o l IH]; [reflexivity |].
  cbn [filter].
  assert (Hkeep : keepOrder mode "" o = true).
  { apply keepOrder_spec. repeat split; intros; congruence. }
  rewrite Hkeep, IH. reflexivity.
Qed.

Lemma no_filter_shows_all_witness :
  filteredOrders
    {| orders := [Scenario.stale_card]; filterMode := "all"; searchTerm := "" |}
  = [Scenario.stale_card].
Proof.
  apply (no_filter_shows_all [Scenario.stale_card] "all"); discriminate.
Defined.

Lemma same_lower_same_truth (t1 t2 : string) :
  Js.toLowerCase t1 = Js.toLowerCase t2 -> Js.truthy t1 = Js.truthy t2.
Proof.
  destruct t1, t2; cbn; intros H; congruence.
Qed.

(** The search does not depend on the case of the term typed: two terms
    that agree up to case select the same orders. *)
Theorem search_ignores_case_of_term (l : list OrderWithFlags)
        (mode t1 t2 : string) :
  Js.toLowerCase t1 = Js.toLowerCase t2 ->
  filteredOrders {| orders := l; filterMode := mode; searchTerm := t1 |}
  = filteredOrders {| orders := l; filterMode := mode; searchTerm := t2 |}.
Proof.
  intros H. unfold filteredOrders. cbn [orders filterMode searchTerm].
  apply filter_ext. intros o.
  rewrite !keepOrder_unfold, H, (same_lower_same_truth t1 t2 H). reflexivity.
Qed.

Lemma search_ignores_case_of_term_witness :
  filteredOrders
    {| orders := [Scenario.stale_card]; filterMode := "all";
       searchTerm := "JOHN" |}
  = filteredOrders
      {| orders := [Scenario.stale_card]; filterMode := "all";
         searchTerm := "john" |}.
Proof.
  apply (search_ignores_case_of_term [Scenario.stale_card] "all" "JOHN" "john").
  reflexivity.
Defined.

(** Nor on the case of what is stored: an order whose reference, name and
    department differ only in case from another's is kept or dropped
    together with it. *)
Theorem search_ignores_case_of_fields (mode term : string)
        (o1 o2 : OrderWithFlags) :
  isAssignedToMe o1 = isAssignedToMe o2 ->
  assigned_to (order o1) = assigned_to (order o2) ->
  Js.toLowerCase (woo_order_id (order o1)) = Js.toLowerCase (woo_order_id (order o2)) ->
  Js.toLowerCase (customer_name (order o1)) = Js.toLowerCase (customer_name (order o2)) ->
  option_map Js.toLowerCase (customer_department (order o1))
  = option_map Js.toLowerCase (customer_department (order o2)) ->
  keepOrder mode term o1 = keepOrder mode term o2.
Proof.
  intros Hme Has Hid Hname Hdep.
  rewrite !keepOrder_unfold, Hme, Has, Hid, Hname.
  destruct (customer_department (order o1)) as [d1 |],
           (customer_department (order o2)) as [d2 |];
    cbn [option_map] in Hdep; try discriminate; [| reflexivity].
  injection Hdep as ->. reflexivity.
Qed.

Lemma search_ignores_case_of_fields_witness :
  keepOrder "all" "doe" Scenario.stale_card
  = keepOrder "all" "doe" Cases.shouting_card.
Proof.
  apply (search_ignores_case_of_fields
           "all" "doe" Scenario.stale_card Cases.shouting_card);
    reflexivity.
Defined.

(** The "assigned" and "unassigned" views of one fetch have no order in
    common. *)
Theorem assigned_and_unassigned_are_disjoint
        (now : Z) (user : AuthUser) (data : list Order) (term : string)
        (o : OrderWithFlags) :
  In o (filteredOrders (board now user data "assigned" term)) ->
  ~ In o (filteredOrders (board now user data "unassigned" term)).
Proof.
  unfold filteredOrders, board. cbn [orders filterMode searchTerm].
  rewrite !filter_In, !keepOrder_spec.
  intros [Hin [Ha _]] [_ [_ [Hu _]]].
  specialize (Ha eq_refl). specialize (Hu eq_refl).
  destruct (fetchOrders_In _ _ _ _ Hin) as [Hme _].
  rewrite Hme in Ha. unfold assignedToMe in Ha. rewrite Hu in Ha. discriminate.
Qed.

Lemma assigned_and_unassigned_are_disjoint_witness :
  In (Cases.flagged (Cases.card_of 1))
     (filteredOrders (board 0 useAuth [Cases.card_of 1] "assigned" ""))
  /\ ~ In (Cases.flagged (Cases.card_of 1))
          (filteredOrders (board 0 useAuth [Cases.card_of 1] "unassigned" "")).
Proof.
  assert (H : In (Cases.flagged (Cases.card_of 1))
                 (filteredOrders (board 0 useAuth [Cases.card_of 1] "assigned" "")))
    by (left; reflexivity).
  split; [exact H |].
  exact (assigned_and_unassigned_are_disjoint
           0 useAuth [Cases.card_of 1] "" (Cases.flagged (Cases.card_of 1)) H).
Defined.

(** An order assigned to somebody else shows in neither of the two views:
    it is visible only when the filter is off. *)
Theorem order_of_a_colleague_is_hidden
        (now : Z) (user : AuthUser) (data : list Order) (term : string)
        (o : OrderWithFlags) (u : User) :
  In o (fetchOrders now user data) ->
  assigned_to (order o) = Some u -> user_id u <> auth_id user ->
  ~ In o (filteredOrders (board now user data "assigned" term))
  /\ ~ In o (filteredOrders (board now user data "unassigned" term)).
Proof.
  intros Hin Hu Hne.
  unfold filteredOrders, board. cbn [orders filterMode searchTerm].
  rewrite !filter_In, !keepOrder_spec.
  destruct (fetchOrders_In _ _ _ _ Hin) as [Hme _].
  split.
  - intros [_ [Ha _]]. specialize (Ha eq_refl).
    rewrite Hme in Ha. unfold assignedToMe in Ha. rewrite Hu in Ha.
    apply Z.eqb_eq in Ha. contradiction.
  - intros [_ [_ [Hnone _]]]. specialize (Hnone eq_refl). congruence.
Qed.

Lemma order_of_a_colleague_is_hidden_witness :
  ~ In (Cases.flagged (Cases.card_of 7))
       (filteredOrders (board 0 useAuth [Cases.card_of 7] "assigned" ""))
  /\ ~ In (Cases.flagged (Cases.card_of 7))
          (filteredOrders (board 0 useAuth [Cases.card_of 7] "unassigned" "")).
Proof.
  apply (order_of_a_colleague_is_hidden
           0 useAuth [Cases.card_of 7] "" (Cases.flagged (Cases.card_of 7))
           {| user_id := 7; first_name := "Ann"; last_name := "Lee" |}).
  - left; reflexivity.
  - reflexivity.
  - discriminate.
Defined.

End BoardFacts.

Section CardFacts.
Import Kanban Spec OrderCard.

Lemma column_counts (l : list OrderWithFlags) :
  (List.length (filter (fun o => String.eqb (status (order o)) "ordered") l)
   + List.length (filter (fun o => String.eqb (status (order o)) "in_progress") l)
   + List.length (filter (fun o => String.eqb (status (order o)) "qa_review") l)
   + List.length (filter (fun o => String.eqb (status (order o)) "ready_to_deliver") l)
   + List.length (filter (fun o => String.eqb (status (order o)) "complete") l))%nat
  = List.length (filter (fun o => has_column (status (order o))) l).
Proof.
  induction l as [| a l IH]; [reflexivity |].
  cbn [filter]. unfold has_column at 1. cbn [existsb statuses value].
  destruct (String.eqb (status (order a)) "ordered") eqn:E1;
    destruct (String.eqb (status (order a)) "in_progress") eqn:E2;
    destruct (String.eqb (status (order a)) "qa_review") eqn:E3;
    destruct (String.eqb (status (order a)) "ready_to_deliver") eqn:E4;
    destruct (String.eqb (status (order a)) "complete") eqn:E5;
    repeat match goal with
           | H : String.eqb _ _ = true |- _ => apply String.eqb_eq in H
           end;
    try congruence;
    cbn [orb List.length]; lia.
Qed.

(** The columns partition the filtered orders whose status is one of the
    five: every such order is on exactly one column (the cards on the
    board are as many as those orders), and an order with any other status
    is on none. *)
Theorem columns_partition_filtered_orders (b : Board) :
  List.length (cards b)
  = List.length (filter (fun o => has_column (status (order o))) (filteredOrders b))
  /\ forall o, In o (cards b) <->
               In o (filteredOrders b) /\ has_column (status (order o)) = true.
Proof.
  unfold cards, columns, getOrdersByStatus.
  cbn [map statuses value flat_map snd]. split.
  - rewrite !length_app, <- column_counts. cbn [List.length]. lia.
  - intros o. rewrite !in_app_iff, !filter_In.
    unfold has_column. cbn [existsb statuses value].
    rewrite !orb_true_iff. cbn [In]. intuition congruence.
Qed.

(** [getSystemCount] counts the systems still open: it lies between 0
    and the number of systems, and it is 0 exactly when every system is
    complete.  Without a systems array it is 0. *)
Theorem getSystemCount_counts_open_systems (l : list SystemItem) :
  0 <= getSystemCount (Some l) <= Z.of_nat (List.length l)
  /\ (getSystemCount (Some l) = 0 <->
      forall s, In s l -> system_status s = "complete")
  /\ getSystemCount None = 0.
Proof.
  unfold getSystemCount. split; [| split; [| reflexivity]].
  - split; [lia |]. apply inj_le. apply filter_length_le.
  - rewrite <- Nat2Z.inj_0, Nat2Z.inj_iff, <- Nat.eqb_eq, no_survivor.
    split; intros H s Hs; specialize (H s Hs).
    + apply negb_false_iff, String.eqb_eq in H. exact H.
    + apply negb_false_iff, String.eqb_eq. exact H.
Qed.

(** The colour of the priority chip: red from 3 upwards, amber at 2
    only, plain below 2. *)
Theorem getPriorityColor_bands (p : Z) :
  (getPriorityColor p = "error" <-> 3 <= p)
  /\ (getPriorityColor p = "warning" <-> p = 2)
  /\ (getPriorityColor p = "default" <-> p <= 1).
Proof.
  unfold getPriorityColor.
  destruct (Z.leb_spec 3 p); [| destruct (Z.leb_spec 2 p)];
    repeat split; intros; first [lia | congruence | reflexivity].
Qed.

(** A plain chip is shown for priority 1 only: priority 0 and below shows
    no chip at all. *)
Theorem plain_chip_means_priority_1 (o : Order) :
  showsPriorityChip o = true ->
  getPriorityColor (priority o) = "default" ->
  priority o = 1.
Proof.
  unfold showsPriorityChip, getPriorityColor. intros Hshow Hcol.
  apply Z.ltb_lt in Hshow.
  destruct (Z.leb_spec 3 (priority o)); [discriminate |].
  destruct (Z.leb_spec 2 (priority o)); [discriminate | lia].
Qed.

Lemma plain_chip_means_priority_1_witness :
  showsPriorityChip (Scenario.card "ordered") = true
  /\ getPriorityColor (priority (Scenario.card "ordered")) = "default"
  /\ priority (Scenario.card "ordered") = 1.
Proof.
  split; [reflexivity |]. split; [reflexivity |].
  apply (plain_chip_means_priority_1 (Scenario.card "ordered")); reflexivity.
Defined.

(** Every status the board can ask for is one the status route lists:
    a drop on a column of the board asks, if at all, for that column's
    status for the dragged order, and that status is among the five of
    the route's validator. *)
Theorem board_asks_for_listed_statuses
        (col : Column) (item : DragItem) (i : Z) (s : string) :
  In col statuses ->
  In (UpdateOrderStatus i s) (drop col item) ->
  i = item_id item /\ s = value col /\ In s OrderRoutes.order_statuses.
Proof.
  intros Hcol Hin. unfold drop, handleOrderDrop in Hin.
  destruct (negb (String.eqb (currentStatus item) (value col)));
    [| destruct Hin].
  destruct Hin as [E | [E | []]]; [| discriminate].
  injection E as <- <-. repeat split.
  unfold statuses in Hcol. cbn [In] in Hcol.
  unfold OrderRoutes.order_statuses.
  repeat (destruct Hcol as [<- | Hcol]; [cbn; tauto |]).
  destruct Hcol.
Qed.

Lemma board_asks_for_listed_statuses_witness :
  1 = item_id (dragItem (Scenario.card "ordered"))
  /\ "qa_review" = value (Scenario.column "qa_review" "QA Review")
  /\ In "qa_review" OrderRoutes.order_statuses.
Proof.
  apply (board_asks_for_listed_statuses
           (Scenario.column "qa_review" "QA Review")
           (dragItem (Scenario.card "ordered")) 1 "qa_review").
  - right; right; left; reflexivity.
  - left; reflexivity.
Defined.

Lemma drop_on_other_column_witness :
  drop (Scenario.column "qa_review" "QA Review")
       (dragItem (Scenario.card "ordered"))
  = [UpdateOrderStatus 1 "qa_review"; GetOrders].
Proof.
  apply (drop_on_other_column
           (Scenario.column "qa_review" "QA Review") (Scenario.card "ordered")).
  discriminate.
Defined.

End CardFacts.

(* ================================================================== *)
(** * Further properties of the backend *)

(** ** Objects *)

Section ObjectFacts.
Import Json View.

Lemma get_set_same (k : string) (v : value) (o : obj) :
  get (set k v o) k = v.
Proof.
  induction o as [| [k' v'] o IH]; cbn [set get].
  - rewrite String.eqb_refl. reflexivity.
  - destruct (String.eqb k' k) eqn:E; cbn [get].
    + rewrite String.eqb_refl. reflexivity.
    + rewrite E. exact IH.
Qed.

Lemma get_set_other (k k' : string) (v : value) (o : obj) :
  k <> k' -> get (set k v o) k' = get o k'.
Proof.
  intros Hne. induction o as [| [k0 v0] o IH]; cbn [set get].
  - apply String.eqb_neq in Hne. rewrite Hne. reflexivity.
  - destruct (String.eqb_spec k0 k) as [-> | Hk]; cbn [get].
    + apply String.eqb_neq in Hne. rewrite Hne. reflexivity.
    + rewrite IH. reflexivity.
Qed.

Lemma has_key_spec (o : obj) (k : string) :
  has_key o k = true <-> In k (map fst o).
Proof.
  unfold has_key. rewrite existsb_exists, in_map_iff. split.
  - intros [kv [Hin E]]. apply String.eqb_eq in E. eauto.
  - intros [kv [E Hin]]. exists kv. split; [exact Hin |].
    apply String.eqb_eq. exact E.
Qed.

Lemma keys_set (k : string) (v : value) (o : obj) (k' : string) :
  In k' (map fst (set k v o)) <-> k' = k \/ In k' (map fst o).
Proof.
  induction o as [| [k0 v0] o IH]; cbn [set map fst In].
  - intuition.
  - destruct (String.eqb_spec k0 k) as [-> | Hk]; cbn [map fst In].
    + intuition.
    + rewrite IH. intuition.
Qed.

Lemma has_key_set_other (k k' : string) (v : value) (o : obj) :
  k <> k' -> has_key (set k v o) k' = has_key o k'.
Proof.
  intros Hne. apply eq_true_iff_eq. rewrite !has_key_spec, keys_set.
  intuition congruence.
Qed.

Lemma nodup_set (k : string) (v : value) (o : obj) :
  NoDup (map fst o) -> NoDup (map fst (set k v o)).
Proof.
  induction o as [| [k0 v0] o IH]; cbn [set map fst]; intros H.
  - constructor; [intros [] | constructor].
  - inversion H as [| x l Hnot Hrest]; subst.
    destruct (String.eqb_spec k0 k) as [-> | Hk]; cbn [map fst].
    + constructor; assumption.
    + constructor; [| auto].
      rewrite keys_set. intros [E | Hin]; [congruence | contradiction].
Qed.

(** A key the source does not have keeps the value of the target. *)
Lemma spread_get_absent (dst src : obj) (k : string) :
  has_key src k = false -> get (spread dst src) k = get dst k.
Proof.
  unfold spread. revert dst.
  induction src as [| [k0 v0] src IH]; intros dst H; cbn [fold_left fst snd].
  - reflexivity.
  - unfold has_key in H. cbn [existsb fst] in H.
    apply orb_false_iff in H as [Hk Hrest].
    rewrite IH by exact Hrest.
    apply get_set_other. apply String.eqb_neq. exact Hk.
Qed.

(** A key of the source takes the value the source gives it. *)
Lemma spread_get_present (dst src : obj) (k : string) :
  NoDup (map fst src) -> has_key src k = true ->
  get (spread dst src) k = get src k.
Proof.
  unfold spread. revert dst.
  induction src as [| [k0 v0] src IH]; intros dst Hnd H;
    cbn [fold_left fst snd get].
  - discriminate.
  - inversion Hnd as [| x l Hnot Hrest]; subst.
    destruct (String.eqb_spec k0 k) as [-> | Hk].
    + assert (Habs : has_key src k = false).
      { destruct (has_key src k) eqn:E; [| reflexivity].
        apply has_key_spec in E. contradiction. }
      fold (spread (set k v0 dst) src).
      rewrite (spread_get_absent _ _ _ Habs). apply get_set_same.
    + apply IH; [exact Hrest |].
      unfold has_key in H. cbn [existsb fst] in H.
      apply orb_true_iff in H as [E | E]; [| exact E].
      apply String.eqb_eq in E. contradiction.
Qed.

End ObjectFacts.

(** ** Routes *)

Section RouteFacts.
Import Json Express View.
Variable P : Platform.t.

(** The router has no route for PUT or DELETE: such a request passes
    through it unanswered and unchanged. *)
Theorem no_route_for_put_or_delete (st : Schema.Store) (t : Z) (rq : Request) :
  method rq = PUT \/ method rq = DELETE ->
  snd (Server.handle P st t rq) = Next (Server.fresh t rq).
Proof.
  destruct rq as [m p q b u]. cbn [method].
  intros [-> | ->]; reflexivity.
Qed.

(** The list of orders does not depend on the query, nor on anything
    else in the request or in the store: the filters [status],
    [assigned_to] and [search] are read and dropped. *)
Theorem getOrders_ignores_filters
        (st st' : Schema.Store) (t : Z) (q q' b b' : obj) (u u' : Actor) :
  snd (Server.handle P st t (GET_orders q b u))
  = snd (Server.handle P st' t (GET_orders q' b' u'))
  /\ reply_status (snd (Server.handle P st t (GET_orders q b u))) = Some 200.
Proof. split; reflexivity. Qed.

(** [GET /:id] never answers 404: whatever the id, and whether or not
    the store has such an order, the answer is 200 with order WC-1001
    under the id as [parseInt] reads it (NaN for an id that is no
    number). *)
Theorem getOrderById_always_finds
        (st : Schema.Store) (t : Z) (i : string) (q b : obj) (u : Actor) :
  i <> "" ->
  reply_status (snd (Server.handle P st t (GET_order i q b u))) = Some 200
  /\ reply_field (snd (Server.handle P st t (GET_order i q b u))) "id"
     = of_parseInt (Js.parseInt i)
  /\ reply_field (snd (Server.handle P st t (GET_order i q b u))) "woo_order_id"
     = VStr "WC-1001".
Proof.
  intros Hi. destruct i as [| a i]; [congruence |]. repeat split.
Qed.

(** [GET /:id/systems] answers the empty list for every order, also for
    one that owns systems. *)
Theorem getOrderSystems_always_empty
        (st : Schema.Store) (t : Z) (i : string) (q b : obj) (u : Actor) :
  i <> "" ->
  snd (Server.handle P st t (GET_systems i q b u))
  = Respond {| statusCode := 200; json := VArr [] |}.
Proof.
  intros Hi. destruct i as [| a i]; [congruence |]. reflexivity.
Qed.

(** What [POST /] answers: the body as the two trimming chains leave it,
    under the controller's [id] and over its [created_at]. *)
Lemma create_answer (st : Schema.Store) (t : Z) (q b : obj) (u : Actor) :
  exists v1 v2,
    snd (Server.handle P st t (POST_orders q b u))
    = Respond
        {| statusCode := 201;
           json := VObj (set "created_at" (VStr (Platform.toISOString P t))
                             (spread [("id", VNum 1)]
                                     (set "customer_name" v2
                                          (set "woo_order_id" v1 b)))) |}.
Proof.
  eexists. eexists. reflexivity.
Qed.

(** [created_at] in the answer of [POST /] is always the server's clock,
    also when the body brings a [created_at] of its own. *)
Theorem createOrder_stamps_created_at
        (st : Schema.Store) (t : Z) (q b : obj) (u : Actor) :
  reply_field (snd (Server.handle P st t (POST_orders q b u))) "created_at"
  = VStr (Platform.toISOString P t).
Proof.
  destruct (create_answer st t q b u) as [v1 [v2 ->]].
  unfold reply_field, reply. cbn [json]. apply get_set_same.
Qed.

(** [id] in the answer of [POST /] is 1 unless the body brings an [id]:
    then the body's [id] wins over the controller's. *)
Theorem createOrder_id_comes_from_body
        (st : Schema.Store) (t : Z) (q b : obj) (u : Actor) :
  NoDup (map fst b) ->
  reply_field (snd (Server.handle P st t (POST_orders q b u))) "id"
  = if has_key b "id" then get b "id" else VNum 1.
Proof.
  intros Hnd. destruct (create_answer st t q b u) as [v1 [v2 ->]].
  unfold reply_field, reply. cbn [json].
  rewrite get_set_other by discriminate.
  assert (Hkey : has_key (set "customer_name" v2 (set "woo_order_id" v1 b)) "id"
                 = has_key b "id").
  { rewrite !has_key_set_other by discriminate. reflexivity. }
  destruct (has_key b "id") eqn:E.
  - rewrite spread_get_present.
    + rewrite !get_set_other by discriminate. reflexivity.
    + apply nodup_set, nodup_set, Hnd.
    + exact Hkey.
  - rewrite spread_get_absent by exact Hkey. reflexivity.
Qed.

(** [bulkAssignOrders] answers 500 exactly when the body has no
    [order_ids] or has it null; with anything else there it answers 200. *)
Theorem bulkAssignOrders_fails_iff_ids_missing (c : Ctx) :
  (reply_status (OrderController.bulkAssignOrders c) = Some 500 <->
   get (body (req c)) "order_ids" = VUndefined
   \/ get (body (req c)) "order_ids" = VNull)
  /\ (reply_status (OrderController.bulkAssignOrders c) = Some 200 <->
      get (body (req c)) "order_ids" <> VUndefined
      /\ get (body (req c)) "order_ids" <> VNull).
Proof.
  unfold OrderController.bulkAssignOrders.
  destruct (get (body (req c)) "order_ids");
    cbn [reply_status reply OrderController.caught OrderController.send
         option_map statusCode];
    intuition congruence.
Qed.

End RouteFacts.

Lemma createOrder_id_comes_from_body_witness :
  View.reply_field
    (snd (Server.handle Scenario.platform Scenario.empty_store 5
            (View.POST_orders [] Cases.body_with_id Scenario.staff))) "id"
  = Json.VNum 99.
Proof.
  apply (createOrder_id_comes_from_body
           Scenario.platform Scenario.empty_store 5 [] Cases.body_with_id
           Scenario.staff).
  repeat constructor; cbn; intuition discriminate.
Defined.

Lemma getOrderById_always_finds_witness :
  View.reply_status
    (snd (Server.handle Scenario.platform Scenario.empty_store 5
            (View.GET_order "no-such-order" [] [] Scenario.staff))) = Some 200
  /\ View.reply_field
       (snd (Server.handle Scenario.platform Scenario.empty_store 5
               (View.GET_order "no-such-order" [] [] Scenario.staff))) "id"
     = Json.VNaN.
Proof.
  destruct (getOrderById_always_finds
              Scenario.platform Scenario.empty_store 5 "no-such-order" [] []
              Scenario.staff) as [Hs [Hid _]]; [discriminate |].
  split; [exact Hs | exact Hid].
Defined.

Lemma getOrderSystems_always_empty_witness :
  snd (Server.handle Scenario.platform (Scenario.order1_store "ordered" []) 5
         (View.GET_systems "1" [] [] Scenario.staff))
  = Express.Respond {| Express.statusCode := 200; Express.json := Json.VArr [] |}.
Proof.
  apply (getOrderSystems_always_empty
           Scenario.platform (Scenario.order1_store "ordered" []) 5 "1" [] []
           Scenario.staff).
  discriminate.
Defined.

Lemma no_route_for_put_or_delete_witness :
  snd (Server.handle Scenario.platform Scenario.empty_store 5
         (Scenario.request Express.DELETE ["1"] [] Scenario.manager))
  = Express.Next
      (Server.fresh 5 (Scenario.request Express.DELETE ["1"] [] Scenario.manager)).
Proof.
  apply (no_route_for_put_or_delete
           Scenario.platform Scenario.empty_store 5
           (Scenario.request Express.DELETE ["1"] [] Scenario.manager)).
  right; reflexivity.
Defined.

Lemma status_always_answers_200_witness :
  snd (Server.handle Scenario.platform Scenario.empty_store 5
         {| Express.method := Express.PATCH; Express.path := ["1"; "status"];
            Express.query := [];
            Express.body := [("status", Json.VStr "shipped")];
            Express.user := Scenario.staff |})
  = Express.Respond
      {| Express.statusCode := 200;
         Express.json :=
           Json.VObj [("id", Json.VNum 1); ("status", Json.VStr "shipped");
                      ("updated_at", Json.VStr "5")] |}.
Proof.
  apply (status_always_answers_200
           Scenario.platform Scenario.empty_store 5 "1" []
           [("status", Json.VStr "shipped")] Scenario.staff).
  discriminate.
Defined.

(** ** The error handler, for every error *)

Section ErrorHandlerFacts.
Import Json Express ErrorHandler View.

(** The status in the body is the status of the answer, for every error
    and environment. *)
Theorem errorHandler_status_is_consistent (env : option string) (err : JsError) :
  get (error_object (snd (errorHandler env err))) "status"
  = VNum (statusCode (snd (errorHandler env err))).
Proof.
  unfold errorHandler.
  destruct (String.eqb (name err) "ValidationError");
    [| destruct (String.eqb (name err) "UnauthorizedError");
       [| destruct (String.eqb (name err) "SequelizeValidationError");
          [| destruct (String.eqb (name err) "SequelizeUniqueConstraintError")]]];
    reflexivity.
Qed.

(** The caller reads a stack exactly when NODE_ENV is "development" and
    the error has one: in any other environment, or with none set, no
    stack leaves the server. *)
Theorem errorHandler_stack_only_in_development
        (env : option string) (err : JsError) :
  get (error_object (snd (errorHandler env err))) "stack" <> VUndefined
  <-> env = Some "development" /\ stack err <> None.
Proof.
  unfold errorHandler.
  assert (Hdev : forall e, String.eqb e "development" = true
                           <-> Some e = Some "development").
  { intros e. rewrite String.eqb_eq. split; congruence. }
  destruct (String.eqb (name err) "ValidationError");
    [| destruct (String.eqb (name err) "UnauthorizedError");
       [| destruct (String.eqb (name err) "SequelizeValidationError");
          [| destruct (String.eqb (name err) "SequelizeUniqueConstraintError")]]];
    (destruct env as [e |];
     [ rewrite <- Hdev; destruct (String.eqb e "development");
       destruct (stack err); cbn; intuition congruence
     | cbn; intuition congruence ]).
Qed.

(** For an error under one of the four names the handler knows, status
    and message are fixed by the name: nothing of the error's own message
    or status reaches the caller. *)
Theorem recognised_error_gets_fixed_answer (env : option string) (err : JsError) :
  recognised err = true ->
  In (statusCode (snd (errorHandler env err)),
      sent_message (snd (errorHandler env err)))
     [(400, VStr "Validation Error");
      (401, VStr "Unauthorized");
      (400, VStr "Database Validation Error");
      (409, VStr "Duplicate Entry")].
Proof.
  unfold recognised, errorHandler. cbn [existsb].
  destruct (String.eqb (name err) "ValidationError");
    [intros _; left; reflexivity |].
  destruct (String.eqb (name err) "UnauthorizedError");
    [intros _; right; left; reflexivity |].
  destruct (String.eqb (name err) "SequelizeValidationError");
    [intros _; right; right; left; reflexivity |].
  destruct (String.eqb (name err) "SequelizeUniqueConstraintError");
    [intros _; right; right; right; left; reflexivity |].
  discriminate.
Qed.

Lemma recognised_error_gets_fixed_answer_witness :
  In (statusCode (snd (errorHandler None Cases.unique_violation)),
      sent_message (snd (errorHandler None Cases.unique_violation)))
     [(400, VStr "Validation Error");
      (401, VStr "Unauthorized");
      (400, VStr "Database Validation Error");
      (409, VStr "Duplicate Entry")].
Proof.
  apply (recognised_error_gets_fixed_answer None Cases.unique_violation).
  reflexivity.
Defined.

End ErrorHandlerFacts.

(** ** Database configuration *)

Section DatabaseFacts.
Import Database.

(** The connection URL is what [getDatabaseConfig] returns exactly when
    DATABASE_URL is set and not empty. *)
Theorem getDatabaseConfig_url_iff (env : Env) (u : string) :
  getDatabaseConfig env = Url u <-> env "DATABASE_URL" = Some u /\ u <> "".
Proof.
  unfold getDatabaseConfig.
  destruct (env "DATABASE_URL") as [s |].
  - destruct s as [| a s]; cbn [Js.truthy].
    + split; [discriminate | intros [H Hne]; congruence].
    + split.
      * intros H. injection H as <-. split; [reflexivity | discriminate].
      * intros [H _]. congruence.
  - split; [discriminate | intros [H _]; discriminate].
Qed.

Lemma or_default_nonempty (v : option string) (d : string) :
  d <> "" -> or_default v d <> "".
Proof.
  intros Hd. unfold or_default.
  destruct v as [[| a s] |]; cbn [Js.truthy]; [exact Hd | discriminate | exact Hd].
Qed.

(** When the configuration is given by parts, no part is empty: a
    variable that is unset or empty gives way to its default, and the
    dialect is always postgres. *)
Theorem getDatabaseConfig_parts_are_set (env : Env) (f : Fields) :
  getDatabaseConfig env = Parts f ->
  database f <> "" /\ username f <> "" /\ password f <> "" /\ host f <> ""
  /\ port f <> PortText "" /\ dialect f = "postgres".
Proof.
  unfold getDatabaseConfig. intros H.
  assert (Hf : f = {| database := or_default (env "DB_NAME") "buildroom_db";
                      username := or_default (env "DB_USER") "buildroom_user";
                      password := or_default (env "DB_PASSWORD") "changeme";
                      host := or_default (env "DB_HOST") "localhost";
                      port := match env "DB_PORT" with
                              | Some s => if Js.truthy s then PortText s
                                          else PortNumber 5432
                              | None => PortNumber 5432
                              end;
                      dialect := "postgres" |}).
  { destruct (env "DATABASE_URL") as [u |];
      [destruct (Js.truthy u); [discriminate |] |]; congruence. }
  subst f. cbn [database username password host port dialect].
  repeat split; try (apply or_default_nonempty; discriminate).
  destruct (env "DB_PORT") as [[| a s] |]; cbn [Js.truthy]; discriminate.
Qed.

Lemma getDatabaseConfig_parts_are_set_witness :
  getDatabaseConfig (Cases.env_of [("DB_PASSWORD", ""); ("DB_HOST", "db")])
  = Parts Cases.parts_on_db
  /\ password Cases.parts_on_db <> "".
Proof.
  split; [reflexivity |].
  destruct (getDatabaseConfig_parts_are_set
              (Cases.env_of [("DB_PASSWORD", ""); ("DB_HOST", "db")])
              Cases.parts_on_db eq_refl) as [_ [_ [Hp _]]].
  exact Hp.
Defined.

(** Setting a variable to the empty string is the same as not setting
    it. *)
Theorem empty_variable_is_unset (env : Env) :
  getDatabaseConfig
    (fun k => match env k with
              | Some s => if Js.truthy s then Some s else None
              | None => None
              end)
  = getDatabaseConfig env.
Proof.
  unfold getDatabaseConfig, or_default.
  destruct (env "DATABASE_URL") as [[| a0 s0] |];
    destruct (env "DB_NAME") as [[| a1 s1] |];
    destruct (env "DB_USER") as [[| a2 s2] |];
    destruct (env "DB_PASSWORD") as [[| a3 s3] |];
    destruct (env "DB_HOST") as [[| a4 s4] |];
    destruct (env "DB_PORT") as [[| a5 s5] |];
    reflexivity.
Qed.

End DatabaseFacts.
